(** * tenable_product: platform matching and artifact selection

    A shallow embedding of [library/tenable_product.py]: the identity
    equivalence checks ([is_equivalent_architecture], [is_equivalent_distro]),
    the filename-driven metadata extraction of [TenableDownloadInfo.__init__],
    the selection loop of [TenableProductInfo.get_download_for], and the page
    decoder [TenablePageParser].

    Python values are dynamically typed, so catalog data is modelled as
    [pyval], the values [json.loads] can produce, and every operation that
    Python would reject at run time raises the corresponding exception in
    the [result] monad.  Strings are byte strings: [str.lower] and [\d] act
    on the ASCII range only. *)

From Stdlib Require Import String Ascii List Bool ZArith Lia.
From Stdlib Require Import DecimalString DecimalZ.
Import ListNotations.
Open Scope string_scope.
Open Scope list_scope.
Set Warnings "-register-all".

(* ------------------------------------------------------------------ *)
(** ** Python values and exceptions *)

Inductive pyval : Type :=
| PNone
| PBool (b : bool)
| PInt (z : Z)
| PFloat (literal : string)
| PStr (s : string)
| PList (items : list pyval)
| PDict (entries : list (string * pyval)).

(** What the [ValueError] of [get_download_for] interpolates into its
    message: the four query values and [list_all_os_and_arch_options]. *)
Record no_match : Type := NoMatch {
  nm_os : pyval;
  nm_major_version : pyval;
  nm_arch : pyval;
  nm_os_type : pyval;
  nm_options : list (pyval * pyval)
}.

Inductive pyexc : Type :=
| TypeError
| AttributeError
| KeyError
| IndexError
| ValueError (info : no_match).

Inductive result (A : Type) : Type :=
| Ok (a : A)
| Raise (e : pyexc).

Arguments Ok {A} a.
Arguments Raise {A} e.

Definition bind {A B : Type} (m : result A) (f : A -> result B) : result B :=
  match m with
  | Ok a => f a
  | Raise e => Raise e
  end.

Notation "x <- m ;; k" := (bind m (fun x => k))
  (at level 61, m at next level, right associativity).

(** [try: ... except: ...; return False] around a boolean body. *)
Definition except_false (m : result bool) : bool :=
  match m with
  | Ok b => b
  | Raise _ => false
  end.

(* ------------------------------------------------------------------ *)
(** ** String operations *)

Definition lower_ascii (c : ascii) : ascii :=
  let n := nat_of_ascii c in
  if ((65 <=? n) && (n <=? 90))%nat then ascii_of_nat (n + 32) else c.

(** [s.lower()] *)
Fixpoint lower (s : string) : string :=
  match s with
  | EmptyString => EmptyString
  | String c s' => String (lower_ascii c) (lower s')
  end.

(** [s.startswith(p)] *)
Fixpoint startswith (s p : string) {struct p} : bool :=
  match p with
  | EmptyString => true
  | String a p' =>
      match s with
      | EmptyString => false
      | String b s' => Ascii.eqb a b && startswith s' p'
      end
  end.

(** [s.endswith(p)]: some suffix of [s] is [p]. *)
Fixpoint endswith (s p : string) : bool :=
  (s =? p) ||
  match s with
  | EmptyString => false
  | String _ s' => endswith s' p
  end.

(** [p in s] on strings: [p] starts at some position of [s]. *)
Fixpoint contains (s p : string) : bool :=
  startswith s p ||
  match s with
  | EmptyString => false
  | String _ s' => contains s' p
  end.

(** [x in xs] on a tuple or list of strings. *)
Definition str_in (x : string) (xs : list string) : bool :=
  existsb (String.eqb x) xs.

(** Attribute access on a value that must be a [str]. *)
Definition py_lower (v : pyval) : result string :=
  match v with
  | PStr s => Ok (lower s)
  | _ => Raise AttributeError
  end.

Definition py_endswith (v : pyval) (p : string) : result bool :=
  match v with
  | PStr s => Ok (endswith s p)
  | _ => Raise AttributeError
  end.

(** [v in s] where [s] is a string: the left operand must be a string. *)
Definition py_in_str (v : pyval) (s : string) : result bool :=
  match v with
  | PStr p => Ok (contains s p)
  | _ => Raise TypeError
  end.

Definition is_none (v : pyval) : bool :=
  match v with
  | PNone => true
  | _ => false
  end.

(* ------------------------------------------------------------------ *)
(** ** Identity equivalence resolver *)

Module Arch.

Definition equivalences : list (string * list string) :=
  [ ("x86_64", ["amd64"; "x86-64"]);
    ("armv7l", ["arm"]);
    ("aarch64", ["arm64"]) ].

(** The [for base_arch, aliases in equivalences.items()] loop; [Some b] is
    a [return b] from inside the loop. *)
Fixpoint scan (table : list (string * list string)) (arch1_lower arch2_lower : string)
  : option bool :=
  match table with
  | [] => None
  | (base_arch, aliases) :: table' =>
      if (arch1_lower =? base_arch) && str_in arch2_lower aliases then Some true
      else if (arch2_lower =? base_arch) && str_in arch1_lower aliases then Some true
      else scan table' arch1_lower arch2_lower
  end.

End Arch.

Definition is_equivalent_architecture (arch1 arch2 : pyval) : result bool :=
  arch1_lower <- py_lower arch1 ;;
  arch2_lower <- py_lower arch2 ;;
  match Arch.scan Arch.equivalences arch1_lower arch2_lower with
  | Some b => Ok b
  | None => Ok (arch1_lower =? arch2_lower)
  end.

Module Distro.

Definition equivalences : list (string * list string) :=
  [ ("el", ["redhat"; "rhel"; "fedora"; "centos"; "scientific"; "slc";
            "ascendos"; "cloudlinux"; "psbm"; "oraclelinux"; "ovs";
            "oel"; "virtuozzo"; "xenserver"; "alibaba";
            "euleros"; "openEuler"; "almalinux"; "rocky"; "tencentos";
            "eurolinux"; "kylin linux advanced server"; "miracle"; "el"]);
    ("amzn", ["amazon"; "amzn"]);
    ("ubuntu", ["ubuntu"; "raspbian"; "neon"; "kde neon";
                "linux mint"; "steamOS"; "cumulus linux";
                "pop!_os"; "parrot"; "pardus gnu/linux"; "uos"; "deepin"; "osmc"]);
    ("debian", ["debian"; "devuan"; "kali"]);
    ("suse", ["suse"; "sles"; "sled"; "opensuse"; "opensuse tumbleweed";
              "sles_sap"; "suse_linux"; "opensuse leap"; "alp-dolomite"]) ].

(** The [for group, aliases in equivalences.items()] loop; [Some b] is a
    [return b] from inside the loop, and the membership test of
    [major_version] can raise. *)
Fixpoint scan (table : list (string * list string))
  (distro1_lower : string) (major_version : pyval) (distro2_lower : string)
  : result (option bool) :=
  match table with
  | [] => Ok None
  | (group, aliases) :: table' =>
      if str_in distro1_lower aliases then
        if startswith distro2_lower group then
          if startswith distro2_lower "el" then
            b <- py_in_str major_version distro2_lower ;;
            if b then Ok (Some true) else Ok (Some false)
          else Ok (Some true)
        else scan table' distro1_lower major_version distro2_lower
      else scan table' distro1_lower major_version distro2_lower
  end.

End Distro.

Definition is_equivalent_distro (distro1 major_version distro2 : pyval) : result bool :=
  distro1_lower <- py_lower distro1 ;;
  distro2_lower <- py_lower distro2 ;;
  r <- Distro.scan Distro.equivalences distro1_lower major_version distro2_lower ;;
  match r with
  | Some b => Ok b
  | None => Ok false
  end.

(* ------------------------------------------------------------------ *)
(** ** Regular expressions

    A backtracking matcher for the fragment of [re] syntax the two patterns
    of [TenableDownloadInfo.__init__] use: one-character classes, their
    greedy repetitions, sequence, alternation, named groups, [$], and
    one-character negative lookbehind and lookahead. *)

Module Re.

Inductive cset : Type :=
| Digit                 (* \d *)
| Only (c : ascii)      (* a literal character *)
| Except (c : ascii).   (* [^c] *)

Definition mem (cs : cset) (c : ascii) : bool :=
  match cs with
  | Digit => let n := nat_of_ascii c in ((48 <=? n) && (n <=? 57))%nat
  | Only x => Ascii.eqb c x
  | Except x => negb (Ascii.eqb c x)
  end.

Inductive regex : Type :=
| Cls (cs : cset)
| Plus (cs : cset)
| Star (cs : cset)
| Seq (r1 r2 : regex)
| Alt (r1 r2 : regex)
| Group (name : string) (r : regex)
| Eos
| NotBehind (c : ascii)
| NotAhead (c : ascii).

(** A position in the subject: the characters before it, nearest first,
    and the characters from it on. *)
Record cursor : Type := Cursor {
  before : list ascii;
  after : list ascii
}.

Definition captures : Type := list (string * string).

Definition kont : Type := cursor -> captures -> option (cursor * captures).

(** The text consumed between two positions of one subject. *)
Definition consumed (c0 c1 : cursor) : string :=
  string_of_list_ascii
    (rev (firstn (length (before c1) - length (before c0)) (before c1))).

(** Greedy repetition: take the longest run first, give characters back
    one at a time while the continuation fails. *)
Fixpoint greedy (cs : cset) (bef aft : list ascii) (caps : captures) (k : kont)
  : option (cursor * captures) :=
  match aft with
  | c :: aft' =>
      if mem cs c then
        match greedy cs (c :: bef) aft' caps k with
        | Some m => Some m
        | None => k (Cursor bef aft) caps
        end
      else k (Cursor bef aft) caps
  | [] => k (Cursor bef aft) caps
  end.

Fixpoint run (r : regex) (cur : cursor) (caps : captures) (k : kont)
  : option (cursor * captures) :=
  match r with
  | Cls cs =>
      match after cur with
      | c :: aft' => if mem cs c then k (Cursor (c :: before cur) aft') caps else None
      | [] => None
      end
  | Plus cs =>
      match after cur with
      | c :: aft' => if mem cs c then greedy cs (c :: before cur) aft' caps k else None
      | [] => None
      end
  | Star cs => greedy cs (before cur) (after cur) caps k
  | Seq r1 r2 => run r1 cur caps (fun cur' caps' => run r2 cur' caps' k)
  | Alt r1 r2 =>
      match run r1 cur caps k with
      | Some m => Some m
      | None => run r2 cur caps k
      end
  | Group name r1 =>
      run r1 cur caps (fun cur' caps' => k cur' ((name, consumed cur cur') :: caps'))
  | Eos =>
      (* the end of the string, or just before a newline that ends it *)
      match after cur with
      | [] => k cur caps
      | [c] => if Ascii.eqb c "010"%char then k cur caps else None
      | _ => None
      end
  | NotBehind x =>
      match before cur with
      | c :: _ => if Ascii.eqb c x then None else k cur caps
      | [] => k cur caps
      end
  | NotAhead x =>
      match after cur with
      | c :: _ => if Ascii.eqb c x then None else k cur caps
      | [] => k cur caps
      end
  end.

Record match_object : Type := MatchObject {
  m_start : cursor;
  m_end : cursor;
  m_groups : captures
}.

(** Try the pattern at each position, leftmost first. *)
Fixpoint search_from (r : regex) (bef aft : list ascii) : option match_object :=
  match run r (Cursor bef aft) [] (fun cur caps => Some (cur, caps)) with
  | Some (cur', caps) => Some (MatchObject (Cursor bef aft) cur' caps)
  | None =>
      match aft with
      | c :: aft' => search_from r (c :: bef) aft'
      | [] => None
      end
  end.

(** [re.search(r, s)] *)
Definition search (r : regex) (s : string) : option match_object :=
  search_from r [] (list_ascii_of_string s).

(** [m.group(name)]; [None] for a group that took no part in the match. *)
Fixpoint group (caps : captures) (name : string) : option string :=
  match caps with
  | [] => None
  | (n, v) :: caps' => if n =? name then Some v else group caps' name
  end.

(** [re.split(r, s, maxsplit=1)] for a pattern without groups. *)
Definition split1 (r : regex) (s : string) : list string :=
  match search r s with
  | Some m =>
      [ string_of_list_ascii (rev (before (m_start m)));
        string_of_list_ascii (after (m_end m)) ]
  | None => [s]
  end.

Definition lit (c : ascii) : regex := Cls (Only c).

End Re.

(** The pattern searched in [self.name], spelled here with a space between
    its parts:
    (?P<version> \d+ \. \d+ \. \d+ ) - (?: (?P<os> [^-]+ \d* ) ) \. (?P<ext> [^.]+ ) $ *)
Definition name_pattern : Re.regex :=
  Re.Seq (Re.Group "version"
            (Re.Seq (Re.Plus Re.Digit)
            (Re.Seq (Re.lit ".")
            (Re.Seq (Re.Plus Re.Digit)
            (Re.Seq (Re.lit ".")
                    (Re.Plus Re.Digit))))))
 (Re.Seq (Re.lit "-")
 (Re.Seq (Re.Group "os" (Re.Seq (Re.Plus (Re.Except "-")) (Re.Star Re.Digit)))
 (Re.Seq (Re.lit ".")
 (Re.Seq (Re.Group "ext" (Re.Plus (Re.Except ".")))
         Re.Eos)))).

(** The pattern that splits the [os] group, at most once:
    (?<!\.) \. (?!\.)  |  (?<!_) _ (?!_) *)
Definition separator_pattern : Re.regex :=
  Re.Alt (Re.Seq (Re.NotBehind ".") (Re.Seq (Re.lit ".") (Re.NotAhead ".")))
         (Re.Seq (Re.NotBehind "_") (Re.Seq (Re.lit "_") (Re.NotAhead "_"))).


(* ------------------------------------------------------------------ *)
(** ** Keyword arguments

    A call that expands a value [d] into keyword arguments: [d] must be a
    mapping, each key must name a parameter, and each parameter without a
    default must be given. *)

Definition kwargs : Type := list (string * pyval).

Fixpoint lookup (k : string) (d : kwargs) : option pyval :=
  match d with
  | [] => None
  | (k', v) :: d' => if k' =? k then Some v else lookup k d'
  end.

(** A parameter list: names with their defaults, [None] for a required one. *)
Definition signature : Type := list (string * option pyval).

Definition as_mapping (v : pyval) : result kwargs :=
  match v with
  | PDict d => Ok d
  | _ => Raise TypeError
  end.

Definition known (sig : signature) (k : string) : bool :=
  existsb (fun p => fst p =? k) sig.

Fixpoint bind_params (sig : signature) (kw : kwargs) : result kwargs :=
  match sig with
  | [] => Ok []
  | (p, default) :: sig' =>
      v <- match lookup p kw, default with
           | Some v, _ => Ok v
           | None, Some v => Ok v
           | None, None => Raise TypeError
           end ;;
      frame <- bind_params sig' kw ;;
      Ok ((p, v) :: frame)
  end.

Definition call_kwargs (sig : signature) (kw : kwargs) : result kwargs :=
  if forallb (known sig) (map fst kw) then bind_params sig kw else Raise TypeError.

(** The value bound to a parameter in a frame built by [call_kwargs]. *)
Definition arg (frame : kwargs) (p : string) : pyval :=
  match lookup p frame with
  | Some v => v
  | None => PNone
  end.

(** [xs[i]] on a list of strings, for an index that is not negative. *)
Definition item (xs : list string) (i : nat) : result string :=
  match nth_error xs i with
  | Some x => Ok x
  | None => Raise IndexError
  end.

(* ------------------------------------------------------------------ *)
(** ** TenableInfoMetadata *)

Module TenableInfoMetadata.

Record t : Type := Build {
  os : pyval;
  md5 : pyval;
  arch : pyval;
  sha256 : pyval;
  os_type : pyval;
  product : pyval;
  version : pyval;
  product_type : pyval;
  release_date : pyval;
  product_notes : pyval;
  product_release_date : pyval
}.

Definition params : signature :=
  [ ("os", Some (PStr ""));
    ("md5", Some (PStr ""));
    ("arch", Some (PStr ""));
    ("sha256", Some (PStr ""));
    ("os_type", Some (PStr ""));
    ("product", Some (PStr ""));
    ("version", Some (PStr ""));
    ("product_type", Some (PStr ""));
    ("release_date", Some (PStr ""));
    ("product_notes", Some (PStr ""));
    ("product_release_date", Some (PStr "")) ].

Definition init (kw : kwargs) : result t :=
  a <- call_kwargs params kw ;;
  Ok {| os := arg a "os";
        md5 := arg a "md5";
        arch := arg a "arch";
        sha256 := arg a "sha256";
        os_type := arg a "os_type";
        product := arg a "product";
        version := arg a "version";
        product_type := arg a "product_type";
        release_date := arg a "release_date";
        product_notes := arg a "product_notes";
        product_release_date := arg a "product_release_date" |}.

(** Attribute assignments [self.meta_data.os = v] and the like. *)
Definition set_os (m : t) (v : pyval) : t :=
  Build v (md5 m) (arch m) (sha256 m) (os_type m) (product m) (version m)
        (product_type m) (release_date m) (product_notes m) (product_release_date m).

Definition set_arch (m : t) (v : pyval) : t :=
  Build (os m) (md5 m) v (sha256 m) (os_type m) (product m) (version m)
        (product_type m) (release_date m) (product_notes m) (product_release_date m).

Definition set_os_type (m : t) (v : pyval) : t :=
  Build (os m) (md5 m) (arch m) (sha256 m) v (product m) (version m)
        (product_type m) (release_date m) (product_notes m) (product_release_date m).

End TenableInfoMetadata.

(* ------------------------------------------------------------------ *)
(** ** TenableDownloadInfo *)

Module TenableDownloadInfo.

Record t : Type := Build {
  id : pyval;
  file : pyval;
  name : pyval;
  size : pyval;
  description : pyval;
  sort_order : pyval;
  created_at : pyval;
  updated_at : pyval;
  page_id : pyval;
  publish : pyval;
  required_auth : pyval;
  disabled : pyval;
  type : pyval;
  meta_data : TenableInfoMetadata.t
}.

Definition params : signature :=
  [ ("id", Some PNone);
    ("file", Some (PStr ""));
    ("name", Some (PStr ""));
    ("size", Some PNone);
    ("description", Some (PStr ""));
    ("sort_order", Some (PStr ""));
    ("created_at", Some (PStr ""));
    ("updated_at", Some (PStr ""));
    ("page_id", Some PNone);
    ("publish", Some PNone);
    ("required_auth", Some PNone);
    ("disabled", Some PNone);
    ("type", Some (PStr ""));
    ("meta_data", Some PNone) ].

(** Lines 149 to 168 of [__init__]: what the file name adds to
    [self.meta_data].  Each [return] of the source is a branch that yields
    the metadata as it stands. *)
Definition extract (name : pyval) (md : TenableInfoMetadata.t)
  : result TenableInfoMetadata.t :=
  is_dmg <- py_endswith name "dmg" ;;
  if is_dmg then Ok (TenableInfoMetadata.set_os_type md (PStr "darwin"))
  else
    is_tar <- py_endswith name "tar.gz" ;;
    if is_tar then Ok (TenableInfoMetadata.set_os_type md (PStr "linux"))
    else
      matches <- match name with
                 | PStr s => Ok (Re.search name_pattern s)
                 | _ => Raise TypeError
                 end ;;
      match matches with
      | None => Ok md
      | Some m =>
          os_arch <- match Re.group (Re.m_groups m) "os" with
                     | Some g => Ok (Re.split1 separator_pattern g)
                     | None => Raise TypeError
                     end ;;
          md1 <- (if is_none (TenableInfoMetadata.os md)
                  then part <- item os_arch 0 ;;
                       Ok (TenableInfoMetadata.set_os md (PStr part))
                  else Ok md) ;;
          md2 <- (if is_none (TenableInfoMetadata.os_type md1)
                  then os_lower <- py_lower (TenableInfoMetadata.os md1) ;;
                       if startswith os_lower "win"
                       then Ok (TenableInfoMetadata.set_os_type md1 (PStr "windows"))
                       else Ok (TenableInfoMetadata.set_os_type md1 (PStr "linux"))
                  else Ok md1) ;;
          if is_none (TenableInfoMetadata.arch md2)
          then if (1 <? length os_arch)%nat
               then part <- item os_arch 1 ;;
                    Ok (TenableInfoMetadata.set_arch md2 (PStr part))
               else Ok md2
          else Ok md2
      end.

(** The constructor, called with [kw] expanded into keyword arguments.
    The [download_uri] attribute, a string
    formatted from [id] that nothing else reads, is left out. *)
Definition init (kw : kwargs) : result t :=
  a <- call_kwargs params kw ;;
  let meta_data0 := if is_none (arg a "meta_data") then PDict [] else arg a "meta_data" in
  md_kw <- as_mapping meta_data0 ;;
  md <- TenableInfoMetadata.init md_kw ;;
  md' <- extract (arg a "name") md ;;
  Ok {| id := arg a "id";
        file := arg a "file";
        name := arg a "name";
        size := arg a "size";
        description := arg a "description";
        sort_order := arg a "sort_order";
        created_at := arg a "created_at";
        updated_at := arg a "updated_at";
        page_id := arg a "page_id";
        publish := arg a "publish";
        required_auth := arg a "required_auth";
        disabled := arg a "disabled";
        type := arg a "type";
        meta_data := md' |}.

(** The body of the [try] block of [is_match]. *)
Definition is_match_body (self : t) (os major_version arch os_type : pyval)
  : result bool :=
  os_type_lower <- py_lower os_type ;;
  is_dmg <- (if os_type_lower =? "darwin" then py_endswith (name self) "dmg" else Ok false) ;;
  if is_dmg then Ok true
  else
    d <- is_equivalent_distro os major_version (TenableInfoMetadata.os (meta_data self)) ;;
    if d then is_equivalent_architecture arch (TenableInfoMetadata.arch (meta_data self))
    else Ok false.

Definition is_match (self : t) (os major_version arch os_type : pyval) : bool :=
  except_false (is_match_body self os major_version arch os_type).

End TenableDownloadInfo.

(* ------------------------------------------------------------------ *)
(** ** Iteration and subscripts on catalog values *)

(** The values a [for] loop over [v] visits. *)
Definition py_iter (v : pyval) : result (list pyval) :=
  match v with
  | PList items => Ok items
  | PDict entries => Ok (map (fun kv => PStr (fst kv)) entries)
  | PStr s => Ok (map (fun c => PStr (String c "")) (list_ascii_of_string s))
  | _ => Raise TypeError
  end.

(** [xs[i]] for a sequence of length [length xs]: negative indices count
    from the end. *)
Definition seq_item {A : Type} (xs : list A) (i : Z) : result A :=
  let n := Z.of_nat (length xs) in
  let j := if (i <? 0)%Z then (i + n)%Z else i in
  if ((0 <=? j) && (j <? n))%Z then
    match nth_error xs (Z.to_nat j) with
    | Some x => Ok x
    | None => Raise IndexError
    end
  else Raise IndexError.

(** [v[k]] *)
Definition py_getitem (v k : pyval) : result pyval :=
  match v with
  | PDict entries =>
      match k with
      | PStr s =>
          match lookup s entries with
          | Some x => Ok x
          | None => Raise KeyError
          end
      | PList _ | PDict _ => Raise TypeError
      | _ => Raise KeyError
      end
  | PList items =>
      match k with
      | PInt i => seq_item items i
      | PBool b => seq_item items (if b then 1%Z else 0%Z)
      | _ => Raise TypeError
      end
  | PStr s =>
      let chars := map (fun c => PStr (String c "")) (list_ascii_of_string s) in
      match k with
      | PInt i => seq_item chars i
      | PBool b => seq_item chars (if b then 1%Z else 0%Z)
      | _ => Raise TypeError
      end
  | _ => Raise TypeError
  end.

(* ------------------------------------------------------------------ *)
(** ** TenableProductInfo *)

Module TenableProductInfo.

Record t : Type := Build {
  product_name : pyval;
  sort_order : pyval;
  downloads : list TenableDownloadInfo.t;
  release_notes : pyval;
  version : pyval
}.

Definition params : signature :=
  [ ("product_name", None);
    ("sort_order", None);
    ("downloads", None);
    ("release_notes", Some (PStr ""));
    ("version", Some (PStr "")) ].

(** The list comprehension over [downloads], left to right: each item is
    expanded into the keyword arguments of [TenableDownloadInfo]. *)
Fixpoint build_downloads (items : list pyval) : result (list TenableDownloadInfo.t) :=
  match items with
  | [] => Ok []
  | d :: items' =>
      kw <- as_mapping d ;;
      info <- TenableDownloadInfo.init kw ;;
      rest <- build_downloads items' ;;
      Ok (info :: rest)
  end.

Definition init (kw : kwargs) : result t :=
  a <- call_kwargs params kw ;;
  items <- py_iter (arg a "downloads") ;;
  ds <- build_downloads items ;;
  Ok {| product_name := arg a "product_name";
        sort_order := arg a "sort_order";
        downloads := ds;
        release_notes := arg a "release_notes";
        version := arg a "version" |}.

Definition list_all_os_and_arch_options (self : t) : list (pyval * pyval) :=
  map (fun d => (TenableInfoMetadata.os (TenableDownloadInfo.meta_data d),
                 TenableInfoMetadata.arch (TenableDownloadInfo.meta_data d)))
      (downloads self).

(** The [for d in self.downloads] loop of [get_download_for] over the
    downloads still to visit, and the [raise] after it. *)
Fixpoint scan (self : t) (rest : list TenableDownloadInfo.t)
  (os major_version arch os_type : pyval) : result TenableDownloadInfo.t :=
  match rest with
  | [] =>
      Raise (ValueError
               (NoMatch os major_version arch os_type (list_all_os_and_arch_options self)))
  | d :: rest' =>
      if TenableDownloadInfo.is_match d os major_version arch os_type then Ok d
      else scan self rest' os major_version arch os_type
  end.

Definition get_download_for (self : t) (os major_version arch os_type : pyval)
  : result TenableDownloadInfo.t :=
  scan self (downloads self) os major_version arch os_type.

End TenableProductInfo.

(* ------------------------------------------------------------------ *)
(** ** TenablePageParser

    [html.parser.HTMLParser.feed] and [json.loads] belong to the Python
    library; the parser is modelled over what they deliver: the sequence
    of handler calls that [feed] makes for a text, and the decoded value
    of a JSON text, [None] where [json.loads] raises [JSONDecodeError]. *)

Inductive html_event : Type :=
| StartTag (tag : string) (attrs : list (string * option string))
| Data (data : string)
| EndTag (tag : string).

Definition attr_eqb (a b : string * option string) : bool :=
  (fst a =? fst b) &&
  match snd a, snd b with
  | Some x, Some y => x =? y
  | None, None => true
  | _, _ => false
  end.

(** A dictionary keyed by catalog values, in insertion order.  Only keys
    that are strings are compared: the keys of a decoded JSON object. *)
Definition key_eqb (a b : pyval) : bool :=
  match a, b with
  | PStr x, PStr y => x =? y
  | _, _ => false
  end.

Fixpoint dict_set {V : Type} (d : list (pyval * V)) (k : pyval) (v : V) : list (pyval * V) :=
  match d with
  | [] => [(k, v)]
  | (k', v') :: d' => if key_eqb k' k then (k', v) :: d' else (k', v') :: dict_set d' k v
  end.

Module TenablePageParser.

Record t : Type := Build {
  find_attrs : string * option string;
  find_tag : string;
  in_special_script : bool;
  json_data : string;
  decoded_json : pyval
}.

(** [__init__(tag, attrs)]; a missing [attrs] selects the marker
    [("id", "__NEXT_DATA__")]. *)
Definition init (tag : string) (attrs : option (string * option string)) : t :=
  {| find_attrs := match attrs with
                   | Some a => a
                   | None => ("id", Some "__NEXT_DATA__")
                   end;
     find_tag := tag;
     in_special_script := false;
     json_data := "";
     decoded_json := PNone |}.

(** [TenablePageParser()] *)
Definition new : t := init "script" None.

Definition handle_starttag (self : t) (tag : string) (attrs : list (string * option string)) : t :=
  if (tag =? find_tag self) && existsb (attr_eqb (find_attrs self)) attrs
  then Build (find_attrs self) (find_tag self) true (json_data self) (decoded_json self)
  else self.

Definition handle_data (self : t) (data : string) : t :=
  if in_special_script self
  then Build (find_attrs self) (find_tag self) (in_special_script self)
             (json_data self ++ data) (decoded_json self)
  else self.

Section Decoder.

Variable json_loads : string -> option pyval.
Variable html_events : string -> list html_event.

Definition handle_endtag (self : t) (tag : string) : t :=
  if (tag =? find_tag self) && in_special_script self
  then
    match json_loads (json_data self) with
    | Some v => Build (find_attrs self) (find_tag self) false (json_data self) v
    | None => Build (find_attrs self) (find_tag self) false (json_data self) (decoded_json self)
    end
  else self.

Definition handle (self : t) (e : html_event) : t :=
  match e with
  | StartTag tag attrs => handle_starttag self tag attrs
  | Data data => handle_data self data
  | EndTag tag => handle_endtag self tag
  end.

(** [self.feed(text)] *)
Definition feed (self : t) (text : string) : t :=
  fold_left handle (html_events text) self.

(** The [for product_name in products] loop of [get_product_info]. *)
Fixpoint collect (products : pyval) (names : list pyval)
  (product_info : list (pyval * TenableProductInfo.t))
  : result (list (pyval * TenableProductInfo.t)) :=
  match names with
  | [] => Ok product_info
  | product_name :: names' =>
      product_info_dict <- py_getitem products product_name ;;
      kw <- as_mapping product_info_dict ;;
      info <- TenableProductInfo.init kw ;;
      collect products names' (dict_set product_info product_name info)
  end.

(** [get_product_info(text)]: the parser after the call and the returned
    dictionary. *)
Definition get_product_info (self : t) (text : string)
  : result (t * list (pyval * TenableProductInfo.t)) :=
  let self' := if is_none (decoded_json self) then feed self text else self in
  props <- py_getitem (decoded_json self') (PStr "props") ;;
  pageProps <- py_getitem props (PStr "pageProps") ;;
  products <- py_getitem pageProps (PStr "products") ;;
  names <- py_iter products ;;
  product_info <- collect products names [] ;;
  Ok (self', product_info).

End Decoder.

End TenablePageParser.

(* ------------------------------------------------------------------ *)
(** ** TenableProductDownloader

    [requests.Session.get] is taken as a function from the URL to the
    status code and the body of the response. *)

Module TenableProductDownloader.

Definition root_product_uri : string := "https://www.tenable.com/downloads".
Definition available_products : list string := ["nessus-agents"; "security-center"].

Definition catalog : Type := list (pyval * TenableProductInfo.t).

(** [self.product_info] *)
Definition t : Type := list (string * catalog).

Definition new : t := [].

Fixpoint store (d : t) (k : string) (v : catalog) : t :=
  match d with
  | [] => [(k, v)]
  | (k', v') :: d' => if k' =? k then (k', v) :: d' else (k', v') :: store d' k v
  end.

Fixpoint fetch (d : t) (k : string) : result catalog :=
  match d with
  | [] => Raise KeyError
  | (k', v) :: d' => if k' =? k then Ok v else fetch d' k
  end.

Section Downloader.

Variable json_loads : string -> option pyval.
Variable html_events : string -> list html_event.
Variable http_get : string -> Z * string.

(** The [for product_name in self.available_products] loop. *)
Fixpoint load (self : t) (names : list string) : result t :=
  match names with
  | [] => Ok self
  | product_name :: names' =>
      let parser := TenablePageParser.new in
      let response :=
        http_get (root_product_uri ++ "/" ++ product_name ++ "?loginAttempted=true") in
      if (fst response =? 200)%Z then
        r <- TenablePageParser.get_product_info json_loads html_events parser (snd response) ;;
        load (store self product_name (snd r)) names'
      else load self names'
  end.

Definition load_all_product_info (self : t) : result t :=
  load self available_products.

Definition nessus_agent_info (self : t) : result (t * catalog) :=
  self' <- (match self with
            | [] => load_all_product_info self
            | _ => Ok self
            end) ;;
  c <- fetch self' "nessus-agents" ;;
  Ok (self', c).

(** The [for p in self.nessus_agent_info] loop; [None] when the loop ends
    without a [return]. *)
Fixpoint first_installer (keys : list (pyval * TenableProductInfo.t))
  : result (option TenableProductInfo.t) :=
  match keys with
  | [] => Ok None
  | (p, info) :: keys' =>
      p_str <- match p with
                 | PStr s => Ok s
                 | _ => Raise AttributeError
                 end ;;
      if startswith p_str "nessus-agents" then Ok (Some info)
      else first_installer keys'
  end.

Definition nessus_agent_installer_info (self : t)
  : result (t * option TenableProductInfo.t) :=
  r <- nessus_agent_info self ;;
  i <- first_installer (snd r) ;;
  Ok (fst r, i).

Definition get_nessus_agent_download_info (self : t) (os major_version arch os_type : pyval)
  : result (t * TenableDownloadInfo.t) :=
  r <- nessus_agent_installer_info self ;;
  match snd r with
  | Some info =>
      d <- TenableProductInfo.get_download_for info os major_version arch os_type ;;
      Ok (fst r, d)
  | None => Raise AttributeError
  end.

End Downloader.

End TenableProductDownloader.

(* ------------------------------------------------------------------ *)
(** ** Derived notions and sample inputs *)

(** The alias list of the enterprise-Linux group. *)
Definition el_aliases : list string :=
  match Distro.equivalences with
  | (_, aliases) :: _ => aliases
  | [] => []
  end.

(** The three fields extraction fills in: [os], [arch], [os_type]. *)
Definition platform (d : TenableDownloadInfo.t) : pyval * pyval * pyval :=
  (TenableInfoMetadata.os (TenableDownloadInfo.meta_data d),
   TenableInfoMetadata.arch (TenableDownloadInfo.meta_data d),
   TenableInfoMetadata.os_type (TenableDownloadInfo.meta_data d)).

Definition platform_of (r : result TenableDownloadInfo.t) : result (pyval * pyval * pyval) :=
  d <- r ;; Ok (platform d).

(** Groups defined in [caps] stay defined in [caps']. *)
Definition extends (caps caps' : Re.captures) : Prop :=
  forall g, Re.group caps g <> None -> Re.group caps' g <> None.

(** Every match of [r] defines the group [g]: whenever the matcher
    succeeds it has called its continuation with [g] captured. *)
Definition defines (r : Re.regex) (g : string) : Prop :=
  forall (cur : Re.cursor) (caps : Re.captures) (k : Re.kont)
         (res : Re.cursor * Re.captures),
    Re.run r cur caps k = Some res ->
    exists cur' caps',
      k cur' caps' = Some res /\ extends caps caps' /\ Re.group caps' g <> None.

(** A raw catalog entry as the page carries it. *)
Definition raw_download (name os arch : string) : pyval :=
  PDict [ ("name", PStr name);
          ("file", PStr name);
          ("meta_data", PDict [ ("os", PStr os); ("arch", PStr arch);
                                ("os_type", PStr "linux") ]) ].

Definition sample_product_dict : pyval :=
  PDict [ ("product_name", PStr "nessus-agents-10.6.1");
          ("sort_order", PNone);
          ("downloads",
           PList [ raw_download "NessusAgent-10.6.1-ubuntu1404_amd64.deb" "ubuntu1404" "amd64";
                   raw_download "NessusAgent-10.6.1-ubuntu1404_arm64.deb" "ubuntu1404" "arm64";
                   raw_download "NessusAgent-10.6.1-el8.x86_64.rpm" "el8" "x86_64" ]) ].

Definition sample_downloads : list TenableDownloadInfo.t :=
  match as_mapping sample_product_dict with
  | Ok kw =>
      match TenableProductInfo.init kw with
      | Ok p => TenableProductInfo.downloads p
      | Raise _ => []
      end
  | Raise _ => []
  end.

Definition sample_product : TenableProductInfo.t :=
  TenableProductInfo.Build (PStr "nessus-agents-10.6.1") PNone sample_downloads
                           (PStr "") (PStr "").

Definition sample_dmg : TenableDownloadInfo.t :=
  TenableDownloadInfo.Build PNone (PStr "") (PStr "NessusAgent-10.6.1.dmg") PNone
    (PStr "") (PStr "") (PStr "") (PStr "") PNone PNone PNone PNone (PStr "")
    (TenableInfoMetadata.Build (PStr "") (PStr "") (PStr "") (PStr "") (PStr "darwin")
       (PStr "") (PStr "") (PStr "") (PStr "") (PStr "") (PStr "")).

(** A page whose marked script holds text that is not JSON, and stand-ins
    for the library functions on it. *)
Definition broken_page : string := "<script id=__NEXT_DATA__>{oops</script>".

Definition sample_json_loads (s : string) : option pyval :=
  if s =? "{}" then Some (PDict []) else None.

Definition sample_html_events (text : string) : list html_event :=
  if text =? broken_page
  then [ StartTag "script" [("id", Some "__NEXT_DATA__")]; Data "{oops"; EndTag "script" ]
  else [].

Definition sample_http_get (url : string) : Z * string := (200%Z, broken_page).

(* ------------------------------------------------------------------ *)
(** ** The download locator

    [self.download_uri], the URI template formatted with [self.id].  The
    text [str.format] inserts for a value is modelled for integers, strings,
    [None] and booleans; for a float, a list or a dictionary it is not, and
    the locator of such an identifier is left undetermined ([None]). *)

Definition py_str (v : pyval) : option string :=
  match v with
  | PNone => Some "None"
  | PBool true => Some "True"
  | PBool false => Some "False"
  | PInt z => Some (NilEmpty.string_of_int (Z.to_int z))
  | PStr s => Some s
  | PFloat _ | PList _ | PDict _ => None
  end.

(** [TENABLE_DOWNLOAD_API_URI.format(product_id=...)] *)
Definition TENABLE_DOWNLOAD_API_URI (product_id : string) : string :=
  "https://www.tenable.com/downloads/api/v1/public/pages/nessus-agents/downloads/"
  ++ product_id ++ "/download?i_agree_to_tenable_license_agreement=true".

Definition download_uri (self : TenableDownloadInfo.t) : option string :=
  option_map TENABLE_DOWNLOAD_API_URI (py_str (TenableDownloadInfo.id self)).

(* ------------------------------------------------------------------ *)
(** ** Closed forms of the equivalence loops *)

(** The (canonical, alias) pairs of an equivalence table. *)
Definition alias_pairs (table : list (string * list string)) : list (string * string) :=
  flat_map (fun ga => map (pair (fst ga)) (snd ga)) table.

(** The reported name is an alias of the group and the candidate starts
    with the group's key. *)
Definition group_accepts (d1 d2 : string) (g : string * list string) : bool :=
  str_in d1 (snd g) && startswith d2 (fst g).

(** The reported name is an alias of no group. *)
Definition unknown_distro (d1 : string) : bool :=
  forallb (fun g => negb (str_in d1 (snd g))) Distro.equivalences.

(** The default a signature gives a parameter: that of its first entry. *)
Fixpoint default_of (sig : signature) (p : string) : option pyval :=
  match sig with
  | [] => None
  | (p', default) :: sig' => if p' =? p then default else default_of sig' p
  end.

(** The query is for the darwin family and the artifact is a disk image:
    the first test of [is_match]. *)
Definition darwin_dmg (self : TenableDownloadInfo.t) (os_type : pyval) : Prop :=
  exists s n : string,
    os_type = PStr s /\ lower s = "darwin" /\
    TenableDownloadInfo.name self = PStr n /\ endswith n "dmg" = true.

(** The matcher only moves forward: what is left at [cur'] is a suffix of
    what was left at [cur]. *)
Definition ahead (cur cur' : Re.cursor) : Prop :=
  exists taken, Re.after cur = taken ++ Re.after cur'.

(** Every match of [r] consumes the character [c]: [c] occurs in the text
    the match starts at. *)
Definition reads (r : Re.regex) (c : ascii) : Prop :=
  forall (cur : Re.cursor) (caps : Re.captures) (k : Re.kont)
         (res : Re.cursor * Re.captures),
    Re.run r cur caps k = Some res -> In c (Re.after cur).

(** The value an entry gives a field, or the field's default. *)
Definition given (kw : kwargs) (p : string) (default : pyval) : pyval :=
  match lookup p kw with
  | Some v => v
  | None => default
  end.

(** Every parameter of the signature has a default. *)
Definition all_optional (sig : signature) : bool :=
  forallb (fun p => match snd p with Some _ => true | None => false end) sig.

(** The start tag the parser waits for: its tag, with its marker among
    the attributes. *)
Definition marks (self : TenablePageParser.t) (e : html_event) : bool :=
  match e with
  | StartTag tag attrs =>
      (tag =? TenablePageParser.find_tag self)
      && existsb (attr_eqb (TenablePageParser.find_attrs self)) attrs
  | _ => false
  end.

(** The text of a script delivered in several chunks. *)
Definition join (chunks : list string) : string :=
  fold_right append "" chunks.

(** A raw product entry and the product line built from it. *)
Definition builds (entry : string * pyval) (info : TenableProductInfo.t) : Prop :=
  exists kw, snd entry = PDict kw /\ TenableProductInfo.init kw = Ok info.

(** A raw download entry and the artifact built from it. *)
Definition builds_download (item : pyval) (d : TenableDownloadInfo.t) : Prop :=
  exists kw, item = PDict kw /\ TenableDownloadInfo.init kw = Ok d.

(** The key of a product line as the returned dictionary holds it. *)
Definition product_key (entry : string * pyval) : pyval := PStr (fst entry).

(** A key of the catalog that is a string not starting with the
    installer prefix. *)
Definition not_installer (entry : pyval * TenableProductInfo.t) : Prop :=
  exists s, fst entry = PStr s /\ startswith s "nessus-agents" = false.

(** A well-formed page whose catalog has two product lines. *)
Definition sample_page : string := "<script id=__NEXT_DATA__>{...}</script>".

Definition sample_document : pyval :=
  PDict [ ("props",
           PDict [ ("pageProps",
                    PDict [ ("products",
                             PDict [ ("release-notes",
                                      PDict [ ("product_name", PStr "notes");
                                              ("sort_order", PNone);
                                              ("downloads", PList []) ]);
                                     ("nessus-agents-10.6.1", sample_product_dict) ]) ]) ]);
          ("page", PStr "/downloads/nessus-agents") ].

Definition sample_loads (s : string) : option pyval :=
  if s =? "{...}" then Some sample_document else None.

Definition sample_events (text : string) : list html_event :=
  if text =? sample_page
  then [ StartTag "html" []; Data "Downloads";
         StartTag "script" [("id", Some "__NEXT_DATA__")];
         Data "{.."; Data ".}"; EndTag "script"; EndTag "html" ]
  else [ StartTag "html" []; Data text; EndTag "html" ].

Definition sample_get (url : string) : Z * string :=
  if url =? "https://www.tenable.com/downloads/nessus-agents?loginAttempted=true"
  then (200%Z, sample_page)
  else (404%Z, "not found").

(** The two pages [load_all_product_info] asks for. *)
Definition nessus_agents_url : string :=
  "https://www.tenable.com/downloads/nessus-agents?loginAttempted=true".

Definition security_center_url : string :=
  "https://www.tenable.com/downloads/security-center?loginAttempted=true".

(** Both pages answer 200; the second holds text that is not JSON. *)
Definition sample_get_both (url : string) : Z * string :=
  if url =? nessus_agents_url then (200%Z, sample_page) else (200%Z, broken_page).

Definition sample_events_both (text : string) : list html_event :=
  if text =? broken_page then sample_html_events text else sample_events text.

Definition sample_catalog : list (pyval * TenableProductInfo.t) :=
  [ (PStr "release-notes", TenableProductInfo.Build (PStr "notes") PNone [] (PStr "") (PStr ""));
    (PStr "nessus-agents-10.6.1", sample_product) ].

(* ================================================================== *)
(** * Properties *)

(* ------------------------------------------------------------------ *)
(** ** Strings *)

Lemma lower_ascii_idem (c : ascii) : lower_ascii (lower_ascii c) = lower_ascii c.
Proof.
  destruct c as [[] [] [] [] [] [] [] []]; reflexivity.
Qed.

Lemma lower_idem (s : string) : lower (lower s) = lower s.
Proof.
  induction s as [|c s IH]; simpl; [reflexivity|].
  now rewrite lower_ascii_idem, IH.
Qed.

Lemma contains_empty (s : string) : contains s "" = true.
Proof. destruct s; reflexivity. Qed.

Lemma startswith_app (p s : string) : startswith (p ++ s)%string p = true.
Proof.
  induction p as [|c p IH]; cbn [startswith append]; [reflexivity|].
  now rewrite Ascii.eqb_refl.
Qed.

(** A string has one first character: it cannot start with two words that
    differ there. *)
Lemma startswith_first (s : string) (a b : ascii) (p q : string) :
  a <> b ->
  startswith s (String a p) = true ->
  startswith s (String b q) = false.
Proof.
  intros Hab H.
  destruct s as [|c s]; cbn [startswith] in *; [discriminate|].
  destruct (Ascii.eqb a c) eqn:Ea; [|discriminate].
  apply Ascii.eqb_eq in Ea; subst c.
  destruct (Ascii.eqb b a) eqn:Eb; [|reflexivity].
  apply Ascii.eqb_eq in Eb. now elim Hab.
Qed.

Lemma startswith_lower_el (s : string) :
  startswith s "el" = true -> startswith (lower s) "el" = true.
Proof.
  destruct s as [|a [|b s]]; cbn [startswith lower]; intros H; try discriminate.
  - now rewrite andb_false_r in H.
  - apply andb_true_iff in H as [Ea H].
    apply andb_true_iff in H as [Eb _].
    apply Ascii.eqb_eq in Ea, Eb; subst a b. reflexivity.
Qed.

(* ------------------------------------------------------------------ *)
(** ** Architectures *)

Lemma arch_scan_sym (table : list (string * list string)) (a b : string) :
  Arch.scan table a b = Arch.scan table b a.
Proof.
  induction table as [|[base aliases] table IH]; simpl; [reflexivity|].
  rewrite IH.
  destruct ((a =? base) && str_in b aliases), ((b =? base) && str_in a aliases);
    reflexivity.
Qed.

Lemma is_equivalent_architecture_comm (a b : pyval) :
  is_equivalent_architecture a b = is_equivalent_architecture b a.
Proof.
  unfold is_equivalent_architecture.
  destruct a, b; try reflexivity.
  unfold py_lower, bind.
  now rewrite arch_scan_sym, String.eqb_sym.
Qed.

(** C7: for every pair of architecture strings [a] and [b],
    [is_equivalent_architecture] returns a boolean, and it returns the same
    boolean with the two arguments exchanged. *)
Theorem is_equivalent_architecture_symmetric (a b : string) :
  exists r : bool,
    is_equivalent_architecture (PStr a) (PStr b) = Ok r /\
    is_equivalent_architecture (PStr b) (PStr a) = Ok r.
Proof.
  rewrite (is_equivalent_architecture_comm (PStr b) (PStr a)).
  unfold is_equivalent_architecture, py_lower, bind.
  destruct (Arch.scan Arch.equivalences (lower a) (lower b)) as [r|]; eauto.
Qed.

(* ------------------------------------------------------------------ *)
(** ** Distributions *)

Lemma distro_scan_cons (group : string) (aliases : list string)
  (table : list (string * list string)) (d1 : string) (mv : pyval) (d2 : string) :
  Distro.scan ((group, aliases) :: table) d1 mv d2 =
  if str_in d1 aliases then
    if startswith d2 group then
      if startswith d2 "el" then
        b <- py_in_str mv d2 ;; if b then Ok (Some true) else Ok (Some false)
      else Ok (Some true)
    else Distro.scan table d1 mv d2
  else Distro.scan table d1 mv d2.
Proof. reflexivity. Qed.

(** The version is read only under a group whose key a token starting
    with "el" can start with. *)
Lemma distro_scan_version_free (table : list (string * list string))
  (d1 : string) (mv mv' : pyval) (d2 : string) :
  (forall group aliases, In (group, aliases) table ->
     str_in d1 aliases = true -> startswith d2 group = true ->
     startswith d2 "el" = false) ->
  Distro.scan table d1 mv d2 = Distro.scan table d1 mv' d2.
Proof.
  induction table as [|[group aliases] table IH]; intros H; [reflexivity|].
  rewrite !distro_scan_cons.
  assert (IH' : Distro.scan table d1 mv d2 = Distro.scan table d1 mv' d2).
  { apply IH. intros g al Hin. apply H. now right. }
  destruct (str_in d1 aliases) eqn:Ha; [|exact IH'].
  destruct (startswith d2 group) eqn:Hg; [|exact IH'].
  now rewrite (H group aliases (or_introl eq_refl) Ha Hg).
Qed.

Lemma other_groups_not_el (d1 d2 : string) :
  str_in d1 el_aliases = false ->
  forall group aliases, In (group, aliases) Distro.equivalences ->
    str_in d1 aliases = true -> startswith d2 group = true ->
    startswith d2 "el" = false.
Proof.
  intros Hel group aliases Hin Ha Hg.
  unfold Distro.equivalences in Hin.
  destruct Hin as [E|[E|[E|[E|[E|[]]]]]]; injection E as <- <-.
  - unfold el_aliases, Distro.equivalences in Hel. congruence.
  - revert Hg. apply startswith_first. discriminate.
  - revert Hg. apply startswith_first. discriminate.
  - revert Hg. apply startswith_first. discriminate.
  - revert Hg. apply startswith_first. discriminate.
Qed.

Lemma is_equivalent_distro_el (d1 mv d2 : string) :
  str_in (lower d1) el_aliases = true ->
  startswith (lower d2) "el" = true ->
  is_equivalent_distro (PStr d1) (PStr mv) (PStr d2) = Ok (contains (lower d2) mv).
Proof.
  intros Hel Hst.
  unfold is_equivalent_distro, Distro.equivalences; simpl py_lower; unfold bind at 1 2.
  rewrite distro_scan_cons.
  change (str_in (lower d1) el_aliases) with
    (str_in (lower d1) el_aliases) in Hel.
  unfold el_aliases, Distro.equivalences in Hel.
  rewrite Hel, Hst. simpl.
  now destruct (contains (lower d2) mv).
Qed.

Lemma is_equivalent_distro_version_free (d1 d2 : string) (mv mv' : pyval) :
  str_in (lower d1) el_aliases = false ->
  is_equivalent_distro (PStr d1) mv (PStr d2) = is_equivalent_distro (PStr d1) mv' (PStr d2).
Proof.
  intros Hel.
  unfold is_equivalent_distro; simpl py_lower; unfold bind at 1 2 4 5.
  now rewrite (distro_scan_version_free Distro.equivalences (lower d1) mv mv' (lower d2)
                 (other_groups_not_el (lower d1) (lower d2) Hel)).
Qed.

(** The el aliases occur in no other group. *)
Lemma el_alias_in_no_other_group (x : string) (mv : pyval) (d2 : string) :
  str_in x el_aliases = true ->
  Distro.scan (tl Distro.equivalences) x mv d2 = Ok None.
Proof.
  intros H. apply existsb_exists in H as (a & Hin & E).
  apply String.eqb_eq in E; subst a.
  unfold el_aliases, Distro.equivalences in Hin.
  repeat (destruct Hin as [<-|Hin]; [reflexivity|]).
  destruct Hin.
Qed.

Lemma is_equivalent_distro_el_other_token (d1 d2 : string) (mv : pyval) :
  str_in (lower d1) el_aliases = true ->
  startswith (lower d2) "el" = false ->
  is_equivalent_distro (PStr d1) mv (PStr d2) = Ok false.
Proof.
  intros Hel Hst.
  unfold is_equivalent_distro; cbn [py_lower]; unfold bind at 1 2.
  unfold Distro.equivalences. rewrite distro_scan_cons.
  pose proof (el_alias_in_no_other_group (lower d1) mv (lower d2) Hel) as Hrest.
  unfold el_aliases, Distro.equivalences in Hel.
  rewrite Hel, Hst.
  unfold Distro.equivalences in Hrest; cbn [tl] in Hrest.
  rewrite Hrest. reflexivity.
Qed.

Lemma is_equivalent_distro_case_insensitive (d1 mv d2 : pyval) (s : string) :
  d1 = PStr s ->
  is_equivalent_distro d1 mv d2 = is_equivalent_distro (PStr (lower s)) mv d2.
Proof.
  intros ->. unfold is_equivalent_distro, py_lower.
  now rewrite lower_idem.
Qed.

(** C3: the major version is required as a substring of the candidate
    exactly in the enterprise-Linux group: ("CentOS", "8", "el8") is
    equivalent, ("CentOS", "7", "el8") is not, ("Ubuntu", v, "ubuntu2004") is
    equivalent for every [v]; for a reported name of the el group and a
    candidate starting with "el" the answer is the substring test, and for a
    reported name of the el group and any other candidate the answer is
    false, and for a reported name outside the el group the answer does not
    depend on the version. *)
Theorem is_equivalent_distro_version_gate :
  is_equivalent_distro (PStr "CentOS") (PStr "8") (PStr "el8") = Ok true /\
  is_equivalent_distro (PStr "CentOS") (PStr "7") (PStr "el8") = Ok false /\
  (forall v : pyval,
     is_equivalent_distro (PStr "Ubuntu") v (PStr "ubuntu2004") = Ok true) /\
  (forall d1 mv d2 : string,
     str_in (lower d1) el_aliases = true ->
     startswith (lower d2) "el" = true ->
     is_equivalent_distro (PStr d1) (PStr mv) (PStr d2) = Ok (contains (lower d2) mv)) /\
  (forall (d1 d2 : string) (mv : pyval),
     str_in (lower d1) el_aliases = true ->
     startswith (lower d2) "el" = false ->
     is_equivalent_distro (PStr d1) mv (PStr d2) = Ok false) /\
  (forall (d1 d2 : string) (mv mv' : pyval),
     str_in (lower d1) el_aliases = false ->
     is_equivalent_distro (PStr d1) mv (PStr d2) =
     is_equivalent_distro (PStr d1) mv' (PStr d2)).
Proof.
  split; [reflexivity|].
  split; [reflexivity|].
  split; [intros v; reflexivity|].
  split; [exact is_equivalent_distro_el|].
  split; [exact is_equivalent_distro_el_other_token|].
  exact is_equivalent_distro_version_free.
Qed.

Lemma is_equivalent_distro_version_gate_witness :
  is_equivalent_distro (PStr "Rocky") (PStr "9") (PStr "EL9") = Ok true /\
  is_equivalent_distro (PStr "Debian") (PStr "12") (PStr "debian10_amd64") =
  is_equivalent_distro (PStr "Debian") PNone (PStr "debian10_amd64").
Proof.
  destruct is_equivalent_distro_version_gate as (_ & _ & _ & Hel & _ & Hfree).
  split.
  - apply (Hel "Rocky" "9" "EL9"); reflexivity.
  - apply (Hfree "Debian" "debian10_amd64" (PStr "12") PNone); reflexivity.
Defined.

(** C9: the reported name is lower-cased but the table spells two aliases
    with a capital letter, so no spelling of them is recognised:
    "OpenEuler" and "openEuler" are not matched with any el candidate, nor
    "SteamOS" and "steamOS" with any ubuntu candidate, whatever the version,
    while the neighbouring alias "euleros" is. *)
Theorem is_equivalent_distro_mixed_case_alias :
  (forall (mv : pyval) (d2 : string),
     is_equivalent_distro (PStr "OpenEuler") mv (PStr d2) = Ok false /\
     is_equivalent_distro (PStr "openEuler") mv (PStr d2) = Ok false /\
     is_equivalent_distro (PStr "SteamOS") mv (PStr d2) = Ok false /\
     is_equivalent_distro (PStr "steamOS") mv (PStr d2) = Ok false) /\
  is_equivalent_distro (PStr "openEuler") (PStr "8") (PStr "el8") = Ok false /\
  is_equivalent_distro (PStr "SteamOS") (PStr "20") (PStr "ubuntu2004") = Ok false /\
  is_equivalent_distro (PStr "EulerOS") (PStr "8") (PStr "el8") = Ok true /\
  In "openEuler" el_aliases.
Proof.
  split; [intros mv d2; repeat split; reflexivity|].
  repeat split; try reflexivity.
  unfold el_aliases, Distro.equivalences.
  do 16 right. now left.
Qed.

(** With an empty major version the substring test always succeeds. *)
Lemma is_equivalent_distro_empty_version (d1 d2 : string) :
  str_in (lower d1) el_aliases = true ->
  startswith d2 "el" = true ->
  is_equivalent_distro (PStr d1) (PStr "") (PStr d2) = Ok true.
Proof.
  intros Hel Hst.
  rewrite is_equivalent_distro_el; trivial.
  - now rewrite contains_empty.
  - now apply startswith_lower_el.
Qed.

(** C10: with an empty major version the version test of the el group
    always succeeds, for every reported name whose lower-case form the table
    lists in the el group and every candidate starting with "el"; but the
    alias "openEuler", which the table lists with a capital letter, is not
    such a name: ("openEuler", "", "el8") is not equivalent. *)
Theorem is_equivalent_distro_empty_version_gate :
  (forall d1 d2 : string,
     str_in (lower d1) el_aliases = true ->
     startswith d2 "el" = true ->
     is_equivalent_distro (PStr d1) (PStr "") (PStr d2) = Ok true) /\
  In "openEuler" el_aliases /\
  startswith "el8" "el" = true /\
  is_equivalent_distro (PStr "openEuler") (PStr "") (PStr "el8") = Ok false.
Proof.
  split; [exact is_equivalent_distro_empty_version|].
  repeat split; try reflexivity.
  unfold el_aliases, Distro.equivalences.
  do 16 right. now left.
Qed.

Lemma is_equivalent_distro_empty_version_gate_witness :
  is_equivalent_distro (PStr "CentOS") (PStr "") (PStr "el7") = Ok true.
Proof.
  destruct is_equivalent_distro_empty_version_gate as [Hgate _].
  apply (Hgate "CentOS" "el7"); reflexivity.
Defined.

(* ------------------------------------------------------------------ *)
(** ** The matcher reaches its continuation *)

Lemma extends_refl (caps : Re.captures) : extends caps caps.
Proof. intros g H. exact H. Qed.

Lemma extends_trans (c1 c2 c3 : Re.captures) :
  extends c1 c2 -> extends c2 c3 -> extends c1 c3.
Proof. intros H12 H23 g H. apply H23, H12, H. Qed.

Lemma extends_cons (caps : Re.captures) (name v : string) :
  extends caps ((name, v) :: caps).
Proof.
  intros g H. cbn [Re.group].
  destruct (name =? g); [discriminate | exact H].
Qed.

Lemma greedy_reaches (cs : Re.cset) (aft bef : list ascii) (caps : Re.captures)
  (k : Re.kont) (res : Re.cursor * Re.captures) :
  Re.greedy cs bef aft caps k = Some res ->
  exists cur', k cur' caps = Some res.
Proof.
  revert bef.
  induction aft as [|c aft IH]; intros bef H; cbn [Re.greedy] in H.
  - eauto.
  - destruct (Re.mem cs c); [|eauto].
    destruct (Re.greedy cs (c :: bef) aft caps k) eqn:E.
    + injection H as <-. eapply IH, E.
    + eauto.
Qed.

Lemma run_reaches (r : Re.regex) :
  forall (cur : Re.cursor) (caps : Re.captures) (k : Re.kont)
         (res : Re.cursor * Re.captures),
    Re.run r cur caps k = Some res ->
    exists cur' caps', k cur' caps' = Some res /\ extends caps caps'.
Proof.
  induction r as [cs|cs|cs|r1 IH1 r2 IH2|r1 IH1 r2 IH2|name r IH| |x|x];
    intros cur caps k res H; cbn [Re.run] in H.
  - destruct (Re.after cur) as [|c aft]; [discriminate|].
    destruct (Re.mem cs c); [|discriminate].
    eauto using extends_refl.
  - destruct (Re.after cur) as [|c aft]; [discriminate|].
    destruct (Re.mem cs c); [|discriminate].
    apply greedy_reaches in H as [cur' H]. eauto using extends_refl.
  - apply greedy_reaches in H as [cur' H]. eauto using extends_refl.
  - apply IH1 in H as (cur1 & caps1 & H & E1).
    apply IH2 in H as (cur2 & caps2 & H & E2).
    eauto using extends_trans.
  - destruct (Re.run r1 cur caps k) eqn:E.
    + injection H as <-. eapply IH1, E.
    + eapply IH2, H.
  - apply IH in H as (cur1 & caps1 & H & E1).
    exists cur1, ((name, Re.consumed cur cur1) :: caps1). split; [exact H|].
    eapply extends_trans; [exact E1 | apply extends_cons].
  - destruct (Re.after cur) as [|c [|c' aft]]; try discriminate.
    + eauto using extends_refl.
    + destruct (Ascii.eqb c "010"); [|discriminate]. eauto using extends_refl.
  - destruct (Re.before cur) as [|c bef]; [eauto using extends_refl|].
    destruct (Ascii.eqb c x); [discriminate|]. eauto using extends_refl.
  - destruct (Re.after cur) as [|c aft]; [eauto using extends_refl|].
    destruct (Ascii.eqb c x); [discriminate|]. eauto using extends_refl.
Qed.

Lemma defines_group (g : string) (r : Re.regex) : defines (Re.Group g r) g.
Proof.
  intros cur caps k res H. cbn [Re.run] in H.
  apply run_reaches in H as (cur1 & caps1 & H & E).
  exists cur1, ((g, Re.consumed cur cur1) :: caps1). repeat split.
  - exact H.
  - eapply extends_trans; [exact E | apply extends_cons].
  - cbn [Re.group]. rewrite String.eqb_refl. discriminate.
Qed.

Lemma defines_seq_l (g : string) (r1 r2 : Re.regex) :
  defines r1 g -> defines (Re.Seq r1 r2) g.
Proof.
  intros D cur caps k res H. cbn [Re.run] in H.
  apply D in H as (cur1 & caps1 & H & E1 & G).
  apply run_reaches in H as (cur2 & caps2 & H & E2).
  exists cur2, caps2. repeat split.
  - exact H.
  - eapply extends_trans; eassumption.
  - apply E2, G.
Qed.

Lemma defines_seq_r (g : string) (r1 r2 : Re.regex) :
  defines r2 g -> defines (Re.Seq r1 r2) g.
Proof.
  intros D cur caps k res H. cbn [Re.run] in H.
  apply run_reaches in H as (cur1 & caps1 & H & E1).
  apply D in H as (cur2 & caps2 & H & E2 & G).
  exists cur2, caps2. repeat split.
  - exact H.
  - eapply extends_trans; eassumption.
  - exact G.
Qed.

(** A match of the name pattern always carries the [os] group. *)
Lemma name_pattern_defines_os : defines name_pattern "os".
Proof.
  unfold name_pattern.
  apply defines_seq_r, defines_seq_r, defines_seq_l, defines_group.
Qed.

Lemma name_pattern_has_os (cur : Re.cursor) (res : Re.cursor * Re.captures) :
  Re.run name_pattern cur [] (fun cur' caps' => Some (cur', caps')) = Some res ->
  Re.group (snd res) "os" <> None.
Proof.
  intros H.
  apply name_pattern_defines_os in H as (cur' & caps' & H & _ & G).
  now injection H as <-.
Qed.

Lemma search_from_has_os (aft bef : list ascii) (m : Re.match_object) :
  Re.search_from name_pattern bef aft = Some m ->
  Re.group (Re.m_groups m) "os" <> None.
Proof.
  revert bef.
  induction aft as [|c aft IH]; intros bef H; cbn [Re.search_from] in H.
  - destruct (Re.run name_pattern (Re.Cursor bef []) []
                (fun cur caps => Some (cur, caps))) as [[cur' caps]|] eqn:E;
      [|discriminate].
    injection H as <-. apply name_pattern_has_os in E. exact E.
  - destruct (Re.run name_pattern (Re.Cursor bef (c :: aft)) []
                (fun cur caps => Some (cur, caps))) as [[cur' caps]|] eqn:E.
    + injection H as <-. apply name_pattern_has_os in E. exact E.
    + eapply IH, H.
Qed.

Lemma split1_first (r : Re.regex) (s : string) :
  exists part, item (Re.split1 r s) 0 = Ok part.
Proof.
  unfold Re.split1. destruct (Re.search r s); cbn; eauto.
Qed.

Lemma split1_second (r : Re.regex) (s : string) :
  (1 <? length (Re.split1 r s))%nat = true ->
  exists part, item (Re.split1 r s) 1 = Ok part.
Proof.
  unfold Re.split1. destruct (Re.search r s); cbn; [eauto | discriminate].
Qed.

(* ------------------------------------------------------------------ *)
(** ** Extraction *)

(** Extraction returns for every file name, unless [os] holds a value that
    is neither a string nor [None] while [os_type] is [None]. *)
Lemma extract_total (n : string) (md : TenableInfoMetadata.t) :
  is_none (TenableInfoMetadata.os_type md) = false \/
  is_none (TenableInfoMetadata.os md) = true \/
  (exists s, TenableInfoMetadata.os md = PStr s) ->
  exists md', TenableDownloadInfo.extract (PStr n) md = Ok md'.
Proof.
  intros Hty.
  unfold TenableDownloadInfo.extract. cbn [py_endswith bind].
  destruct (endswith n "dmg"); [eauto|].
  destruct (endswith n "tar.gz"); [eauto|].
  destruct (Re.search name_pattern n) as [m|] eqn:Em; [|eauto].
  apply search_from_has_os in Em.
  destruct (Re.group (Re.m_groups m) "os") as [g|]; [clear Em | now elim Em].
  cbn [bind].
  destruct (split1_first separator_pattern g) as [p0 Hp0].
  assert (Harch : forall md2,
    exists md', (if is_none (TenableInfoMetadata.arch md2)
                 then if (1 <? length (Re.split1 separator_pattern g))%nat
                      then part <- item (Re.split1 separator_pattern g) 1 ;;
                           Ok (TenableInfoMetadata.set_arch md2 (PStr part))
                      else Ok md2
                 else Ok md2) = Ok md').
  { intros md2.
    destruct (is_none (TenableInfoMetadata.arch md2)); [|eauto].
    destruct (1 <? length (Re.split1 separator_pattern g))%nat eqn:El; [|eauto].
    destruct (split1_second separator_pattern g El) as [p1 ->]. cbn [bind]. eauto. }
  destruct (is_none (TenableInfoMetadata.os md)) eqn:Eos.
  - rewrite Hp0. cbn [bind].
    destruct (is_none (TenableInfoMetadata.os_type
                (TenableInfoMetadata.set_os md (PStr p0)))) eqn:Et.
    + cbn [TenableInfoMetadata.set_os TenableInfoMetadata.os py_lower bind].
      destruct (startswith (lower p0) "win"); cbn [bind]; apply Harch.
    + cbn [bind]. apply Harch.
  - cbn [bind].
    destruct (is_none (TenableInfoMetadata.os_type md)) eqn:Et.
    + destruct Hty as [Hty|[Hty|[s Hs]]]; try congruence.
      rewrite Hs. cbn [py_lower bind].
      destruct (startswith (lower s) "win"); cbn [bind]; apply Harch.
    + cbn [bind]. apply Harch.
Qed.

Ltac split_result H :=
  match type of H with
  | Ok _ = Ok _ => injection H as <-
  | Raise _ = Ok _ => discriminate H
  | bind ?m _ = Ok _ =>
      let E := fresh "E" in
      destruct m eqn:E; cbn [bind] in H; [| discriminate H]
  | (if ?b then _ else _) = Ok _ =>
      let E := fresh "E" in destruct b eqn:E
  | match ?x with _ => _ end = Ok _ =>
      let E := fresh "E" in destruct x eqn:E
  end.

(** What extraction leaves alone. *)
Lemma extract_frame (n : string) (md md' : TenableInfoMetadata.t) :
  TenableDownloadInfo.extract (PStr n) md = Ok md' ->
  (is_none (TenableInfoMetadata.os md) = false ->
   TenableInfoMetadata.os md' = TenableInfoMetadata.os md) /\
  (is_none (TenableInfoMetadata.arch md) = false ->
   TenableInfoMetadata.arch md' = TenableInfoMetadata.arch md) /\
  (is_none (TenableInfoMetadata.os_type md) = false ->
   endswith n "dmg" = false -> endswith n "tar.gz" = false ->
   TenableInfoMetadata.os_type md' = TenableInfoMetadata.os_type md) /\
  (endswith n "dmg" = true -> TenableInfoMetadata.os_type md' = PStr "darwin") /\
  (endswith n "dmg" = false -> endswith n "tar.gz" = true ->
   TenableInfoMetadata.os_type md' = PStr "linux").
Proof.
  unfold TenableDownloadInfo.extract. cbn [py_endswith bind].
  intros H.
  destruct (endswith n "dmg") eqn:Edmg.
  { injection H as <-. repeat split; try discriminate; reflexivity. }
  destruct (endswith n "tar.gz") eqn:Etar.
  { injection H as <-. repeat split; try discriminate; reflexivity. }
  destruct (Re.search name_pattern n) as [m|].
  2:{ injection H as <-. repeat split; try discriminate; reflexivity. }
  repeat split_result H;
    repeat match goal with
           | E : Ok _ = Ok _ |- _ => injection E as <-
           | E : Raise _ = Ok _ |- _ => discriminate E
           | E : bind _ _ = Ok _ |- _ => split_result E
           | E : (if _ then _ else _) = Ok _ |- _ => split_result E
           end;
    cbn [TenableInfoMetadata.set_os TenableInfoMetadata.set_arch
         TenableInfoMetadata.set_os_type TenableInfoMetadata.os
         TenableInfoMetadata.arch TenableInfoMetadata.os_type] in *;
    repeat split; intros; try congruence; try reflexivity.
Qed.

(** A frame built from a signature binds each given argument to its value. *)
Lemma bind_params_arg (sig : signature) (kw a : kwargs) (p : string) (v : pyval) :
  bind_params sig kw = Ok a ->
  known sig p = true ->
  lookup p kw = Some v ->
  arg a p = v.
Proof.
  revert a.
  induction sig as [|[p0 default] sig IH]; intros a H Hk Hl; [discriminate|].
  cbn [bind_params] in H.
  destruct (match lookup p0 kw, default with
            | Some v0, _ => Ok v0
            | None, Some v0 => Ok v0
            | None, None => Raise TypeError
            end) as [v0|] eqn:E0; [|discriminate].
  cbn [bind] in H.
  destruct (bind_params sig kw) as [frame|]; [|discriminate].
  injection H as <-.
  unfold arg; cbn [lookup].
  destruct (p0 =? p) eqn:Ep.
  - apply String.eqb_eq in Ep; subst p0.
    rewrite Hl in E0. now injection E0.
  - apply IH; trivial.
    unfold known in Hk; cbn [existsb fst] in Hk.
    now rewrite Ep in Hk.
Qed.

Lemma call_kwargs_arg (sig : signature) (kw a : kwargs) (p : string) (v : pyval) :
  call_kwargs sig kw = Ok a ->
  known sig p = true ->
  lookup p kw = Some v ->
  arg a p = v.
Proof.
  unfold call_kwargs.
  destruct (forallb (known sig) (map fst kw)); [|discriminate].
  apply bind_params_arg.
Qed.

Lemma is_none_false (v : pyval) : v <> PNone -> is_none v = false.
Proof. destruct v; trivial. now intros []. Qed.

(** C1: built from the name "NessusAgent-10.6.1-ubuntu1404_amd64.deb" with
    no metadata, or with an empty metadata dictionary, the artifact keeps
    the constructor defaults: [os], [arch] and [os_type] are the empty
    string, not "ubuntu1404", "amd64" and "linux".  The values of the file
    name are stored only over fields the entry gives as null. *)
Theorem init_without_metadata_keeps_defaults :
  platform_of (TenableDownloadInfo.init
    [ ("file", PStr "NessusAgent-10.6.1-ubuntu1404_amd64.deb");
      ("name", PStr "NessusAgent-10.6.1-ubuntu1404_amd64.deb") ])
  = Ok (PStr "", PStr "", PStr "") /\
  platform_of (TenableDownloadInfo.init
    [ ("file", PStr "NessusAgent-10.6.1-ubuntu1404_amd64.deb");
      ("name", PStr "NessusAgent-10.6.1-ubuntu1404_amd64.deb");
      ("meta_data", PDict []) ])
  = Ok (PStr "", PStr "", PStr "") /\
  platform_of (TenableDownloadInfo.init
    [ ("file", PStr "NessusAgent-10.6.1-ubuntu1404_amd64.deb");
      ("name", PStr "NessusAgent-10.6.1-ubuntu1404_amd64.deb");
      ("meta_data", PDict [("os", PNone); ("arch", PNone); ("os_type", PNone)]) ])
  = Ok (PStr "ubuntu1404", PStr "amd64", PStr "linux").
Proof. repeat split; vm_compute; reflexivity. Qed.

(** C6, as stated, fails: an explicit [os_type] does not survive a name
    that ends in "dmg". *)
Lemma explicit_os_type_overwritten :
  ~ (forall (n : string) (mdkw : kwargs) (v : pyval) (d : TenableDownloadInfo.t),
       lookup "os_type" mdkw = Some v ->
       v <> PNone ->
       TenableDownloadInfo.init [("name", PStr n); ("meta_data", PDict mdkw)] = Ok d ->
       TenableInfoMetadata.os_type (TenableDownloadInfo.meta_data d) = v).
Proof.
  intros H.
  pose (d := TenableDownloadInfo.Build PNone (PStr "") (PStr "NessusAgent-10.6.1.dmg")
               PNone (PStr "") (PStr "") (PStr "") (PStr "") PNone PNone PNone PNone
               (PStr "")
               (TenableInfoMetadata.Build (PStr "") (PStr "") (PStr "") (PStr "")
                  (PStr "darwin") (PStr "") (PStr "") (PStr "") (PStr "") (PStr "")
                  (PStr ""))).
  specialize (H "NessusAgent-10.6.1.dmg" [("os_type", PStr "linux")] (PStr "linux") d
                eq_refl).
  assert (E : TenableInfoMetadata.os_type (TenableDownloadInfo.meta_data d) = PStr "linux").
  { apply H; [discriminate | vm_compute; reflexivity]. }
  discriminate E.
Qed.

(** C6, amended: when the constructor returns, an [os] or [arch] that the
    entry's metadata gives with a value other than null is the artifact's
    [os] or [arch], for every file name; an [os_type] given so is kept
    unless the name ends in "dmg", which makes it "darwin", or else in
    "tar.gz", which makes it "linux". *)
Theorem explicit_metadata_precedence
  (kw mdkw : kwargs) (d : TenableDownloadInfo.t) :
  TenableDownloadInfo.init kw = Ok d ->
  lookup "meta_data" kw = Some (PDict mdkw) ->
  exists n : string,
    TenableDownloadInfo.name d = PStr n /\
    (forall v, lookup "os" mdkw = Some v -> v <> PNone ->
       TenableInfoMetadata.os (TenableDownloadInfo.meta_data d) = v) /\
    (forall v, lookup "arch" mdkw = Some v -> v <> PNone ->
       TenableInfoMetadata.arch (TenableDownloadInfo.meta_data d) = v) /\
    (forall v, lookup "os_type" mdkw = Some v -> v <> PNone ->
       TenableInfoMetadata.os_type (TenableDownloadInfo.meta_data d) =
       if endswith n "dmg" then PStr "darwin"
       else if endswith n "tar.gz" then PStr "linux"
       else v).
Proof.
  intros H Hmd.
  unfold TenableDownloadInfo.init in H.
  destruct (call_kwargs TenableDownloadInfo.params kw) as [a|] eqn:Ea; [|discriminate].
  cbn [bind] in H.
  rewrite (call_kwargs_arg _ _ _ "meta_data" _ Ea eq_refl Hmd) in H.
  cbn [is_none as_mapping bind] in H.
  unfold TenableInfoMetadata.init in H.
  destruct (call_kwargs TenableInfoMetadata.params mdkw) as [b|] eqn:Eb; [|discriminate].
  cbn [bind] in H.
  match type of H with
  | bind (TenableDownloadInfo.extract _ ?m) _ = _ => set (md := m) in *
  end.
  destruct (TenableDownloadInfo.extract (arg a "name") md) as [md'|] eqn:Ex;
    [|discriminate].
  cbn [bind] in H. injection H as <-.
  cbn [TenableDownloadInfo.name TenableDownloadInfo.meta_data].
  destruct (arg a "name") as [| | | |n| |] eqn:En; try discriminate Ex.
  exists n. split; [reflexivity|].
  destruct (extract_frame n md md' Ex) as (Hos & Harch & Hty & Hdmg & Htar).
  repeat split; intros v Hv Hnn.
  - rewrite Hos; subst md; cbn [TenableInfoMetadata.os].
    + exact (call_kwargs_arg _ _ _ "os" _ Eb eq_refl Hv).
    + rewrite (call_kwargs_arg _ _ _ "os" _ Eb eq_refl Hv). now apply is_none_false.
  - rewrite Harch; subst md; cbn [TenableInfoMetadata.arch].
    + exact (call_kwargs_arg _ _ _ "arch" _ Eb eq_refl Hv).
    + rewrite (call_kwargs_arg _ _ _ "arch" _ Eb eq_refl Hv). now apply is_none_false.
  - destruct (endswith n "dmg") eqn:Edmg; [now apply Hdmg|].
    destruct (endswith n "tar.gz") eqn:Etar; [now apply Htar|].
    rewrite Hty; trivial; subst md; cbn [TenableInfoMetadata.os_type].
    + exact (call_kwargs_arg _ _ _ "os_type" _ Eb eq_refl Hv).
    + rewrite (call_kwargs_arg _ _ _ "os_type" _ Eb eq_refl Hv). now apply is_none_false.
Qed.

Lemma explicit_metadata_precedence_witness :
  exists n : string,
    TenableDownloadInfo.name sample_dmg = PStr n /\
    (forall v, lookup "os" [("os_type", PStr "darwin")] = Some v -> v <> PNone ->
       TenableInfoMetadata.os (TenableDownloadInfo.meta_data sample_dmg) = v) /\
    (forall v, lookup "arch" [("os_type", PStr "darwin")] = Some v -> v <> PNone ->
       TenableInfoMetadata.arch (TenableDownloadInfo.meta_data sample_dmg) = v) /\
    (forall v, lookup "os_type" [("os_type", PStr "darwin")] = Some v -> v <> PNone ->
       TenableInfoMetadata.os_type (TenableDownloadInfo.meta_data sample_dmg) =
       if endswith n "dmg" then PStr "darwin"
       else if endswith n "tar.gz" then PStr "linux"
       else v).
Proof.
  apply (explicit_metadata_precedence
           [("name", PStr "NessusAgent-10.6.1.dmg");
            ("meta_data", PDict [("os_type", PStr "darwin")])]
           [("os_type", PStr "darwin")] sample_dmg).
  - vm_compute; reflexivity.
  - reflexivity.
Defined.

(** Entries whose name and platform fields are strings always construct. *)
Lemma init_typed_returns (n os arch os_type : string) :
  exists d,
    TenableDownloadInfo.init
      [ ("name", PStr n);
        ("meta_data", PDict [("os", PStr os); ("arch", PStr arch);
                             ("os_type", PStr os_type)]) ] = Ok d.
Proof.
  unfold TenableDownloadInfo.init.
  change (call_kwargs TenableDownloadInfo.params _) with
    (Ok [ ("id", PNone); ("file", PStr ""); ("name", PStr n); ("size", PNone);
          ("description", PStr ""); ("sort_order", PStr ""); ("created_at", PStr "");
          ("updated_at", PStr ""); ("page_id", PNone); ("publish", PNone);
          ("required_auth", PNone); ("disabled", PNone); ("type", PStr "");
          ("meta_data", PDict [("os", PStr os); ("arch", PStr arch);
                               ("os_type", PStr os_type)]) ]).
  cbn [bind].
  change (arg _ "meta_data") with
    (PDict [("os", PStr os); ("arch", PStr arch); ("os_type", PStr os_type)]).
  change (arg _ "name") with (PStr n).
  cbn [is_none as_mapping bind].
  change (TenableInfoMetadata.init _) with
    (Ok (TenableInfoMetadata.Build (PStr os) (PStr "") (PStr arch) (PStr "")
           (PStr os_type) (PStr "") (PStr "") (PStr "") (PStr "") (PStr "") (PStr ""))).
  cbn [bind].
  match goal with
  | |- context [TenableDownloadInfo.extract (PStr n) ?m] =>
      destruct (extract_total n m) as [md' ->]
  end.
  - left. reflexivity.
  - cbn [bind]. eauto.
Qed.

(* ------------------------------------------------------------------ *)
(** ** Matching and selection *)

(** C8: an artifact whose name ends in "dmg" matches every query whose
    OS type is "darwin" in any letter case, whatever the reported OS,
    version and architecture and whatever the artifact's metadata. *)
Theorem is_match_darwin_dmg
  (self : TenableDownloadInfo.t) (n os_type : string) (os major_version arch : pyval) :
  TenableDownloadInfo.name self = PStr n ->
  endswith n "dmg" = true ->
  lower os_type = "darwin" ->
  TenableDownloadInfo.is_match self os major_version arch (PStr os_type) = true.
Proof.
  intros Hn Hdmg Hty.
  unfold TenableDownloadInfo.is_match, TenableDownloadInfo.is_match_body.
  cbn [py_lower bind].
  rewrite Hty, Hn. cbn [py_endswith].
  rewrite String.eqb_refl, Hdmg.
  reflexivity.
Qed.

Lemma is_match_darwin_dmg_witness :
  TenableDownloadInfo.is_match sample_dmg (PStr "MacOSX") (PStr "14") PNone (PStr "Darwin")
  = true.
Proof.
  apply (is_match_darwin_dmg sample_dmg "NessusAgent-10.6.1.dmg" "Darwin");
    reflexivity.
Defined.

Lemma scan_first (self : TenableProductInfo.t)
  (before : list TenableDownloadInfo.t) (d : TenableDownloadInfo.t)
  (after : list TenableDownloadInfo.t) (os major_version arch os_type : pyval) :
  (forall x, In x before ->
     TenableDownloadInfo.is_match x os major_version arch os_type = false) ->
  TenableDownloadInfo.is_match d os major_version arch os_type = true ->
  TenableProductInfo.scan self (before ++ d :: after) os major_version arch os_type = Ok d.
Proof.
  intros Hbefore Hd.
  induction before as [|x before IH]; cbn [app TenableProductInfo.scan].
  - now rewrite Hd.
  - rewrite (Hbefore x (or_introl eq_refl)).
    apply IH. intros y Hy. apply Hbefore. now right.
Qed.

Lemma scan_none (self : TenableProductInfo.t) (rest : list TenableDownloadInfo.t)
  (os major_version arch os_type : pyval) :
  (forall x, In x rest ->
     TenableDownloadInfo.is_match x os major_version arch os_type = false) ->
  TenableProductInfo.scan self rest os major_version arch os_type =
  Raise (ValueError (NoMatch os major_version arch os_type
                       (TenableProductInfo.list_all_os_and_arch_options self))).
Proof.
  intros Hrest.
  induction rest as [|x rest IH]; cbn [TenableProductInfo.scan]; [reflexivity|].
  rewrite (Hrest x (or_introl eq_refl)).
  apply IH. intros y Hy. apply Hrest. now right.
Qed.

(** C2: selection returns the first artifact, in catalog order, that the
    query matches; for artifacts with metadata ("ubuntu1404", "amd64"),
    ("ubuntu1404", "arm64"), ("el8", "x86_64") in that order, the query
    ("Ubuntu", "14", "x86_64", "Debian") returns the first of them. *)
Theorem get_download_for_first_match :
  (forall (self : TenableProductInfo.t)
          (before : list TenableDownloadInfo.t) (d : TenableDownloadInfo.t)
          (after : list TenableDownloadInfo.t) (os major_version arch os_type : pyval),
     TenableProductInfo.downloads self = before ++ d :: after ->
     (forall x, In x before ->
        TenableDownloadInfo.is_match x os major_version arch os_type = false) ->
     TenableDownloadInfo.is_match d os major_version arch os_type = true ->
     TenableProductInfo.get_download_for self os major_version arch os_type = Ok d) /\
  (forall self : TenableProductInfo.t,
     TenableProductInfo.list_all_os_and_arch_options self =
       [ (PStr "ubuntu1404", PStr "amd64");
         (PStr "ubuntu1404", PStr "arm64");
         (PStr "el8", PStr "x86_64") ] ->
     exists d1 d2 d3 : TenableDownloadInfo.t,
       TenableProductInfo.downloads self = [d1; d2; d3] /\
       TenableProductInfo.get_download_for self
         (PStr "Ubuntu") (PStr "14") (PStr "x86_64") (PStr "Debian") = Ok d1).
Proof.
  split.
  - intros self before d after os major_version arch os_type Hds Hbefore Hd.
    unfold TenableProductInfo.get_download_for. rewrite Hds.
    now apply scan_first.
  - intros self Hopts.
    unfold TenableProductInfo.list_all_os_and_arch_options in Hopts.
    unfold TenableProductInfo.get_download_for.
    destruct (TenableProductInfo.downloads self) as [|d1 [|d2 [|d3 [|d4 ds]]]];
      try discriminate Hopts.
    exists d1, d2, d3. split; [reflexivity|].
    cbn [map] in Hopts. injection Hopts as Hos Harch _ _ _ _.
    apply (scan_first self [] d1 [d2; d3]); [intros x []|].
    unfold TenableDownloadInfo.is_match, TenableDownloadInfo.is_match_body.
    rewrite Hos, Harch. reflexivity.
Qed.

Lemma get_download_for_first_match_witness :
  TenableProductInfo.get_download_for sample_product
    (PStr "CentOS") (PStr "8") (PStr "x86_64") (PStr "RedHat")
  = Ok (nth 2 sample_downloads sample_dmg) /\
  TenableProductInfo.get_download_for sample_product
    (PStr "Ubuntu") (PStr "14") (PStr "x86_64") (PStr "Debian")
  = Ok (nth 0 sample_downloads sample_dmg).
Proof.
  destruct get_download_for_first_match as [Hgen Hex].
  split.
  - apply (Hgen sample_product
             [nth 0 sample_downloads sample_dmg; nth 1 sample_downloads sample_dmg]
             (nth 2 sample_downloads sample_dmg) []).
    + reflexivity.
    + intros x [<-|[<-|[]]]; reflexivity.
    + reflexivity.
  - destruct (Hex sample_product eq_refl) as (d1 & d2 & d3 & Hds & Hsel).
    rewrite Hsel. f_equal.
    change (d1 = nth 0 (TenableProductInfo.downloads sample_product) sample_dmg).
    now rewrite Hds.
Defined.

(** C4: when no artifact of the entry matches, selection raises the
    [ValueError] that carries the (os, arch) pair of every artifact of the
    entry, in catalog order, so as many pairs as there are artifacts. *)
Theorem get_download_for_no_match
  (self : TenableProductInfo.t) (os major_version arch os_type : pyval) :
  (forall d, In d (TenableProductInfo.downloads self) ->
     TenableDownloadInfo.is_match d os major_version arch os_type = false) ->
  exists options : list (pyval * pyval),
    TenableProductInfo.get_download_for self os major_version arch os_type =
    Raise (ValueError (NoMatch os major_version arch os_type options)) /\
    options =
    map (fun d => (TenableInfoMetadata.os (TenableDownloadInfo.meta_data d),
                   TenableInfoMetadata.arch (TenableDownloadInfo.meta_data d)))
        (TenableProductInfo.downloads self) /\
    length options = length (TenableProductInfo.downloads self).
Proof.
  intros Hnone.
  exists (TenableProductInfo.list_all_os_and_arch_options self).
  split; [|split].
  - now apply scan_none.
  - reflexivity.
  - apply length_map.
Qed.

Lemma get_download_for_no_match_witness :
  exists options : list (pyval * pyval),
    TenableProductInfo.get_download_for sample_product
      (PStr "FreeBSD") (PStr "14") (PStr "amd64") (PStr "FreeBSD") =
    Raise (ValueError (NoMatch (PStr "FreeBSD") (PStr "14") (PStr "amd64") (PStr "FreeBSD")
                         options)) /\
    options =
    map (fun d => (TenableInfoMetadata.os (TenableDownloadInfo.meta_data d),
                   TenableInfoMetadata.arch (TenableDownloadInfo.meta_data d)))
        (TenableProductInfo.downloads sample_product) /\
    length options = length (TenableProductInfo.downloads sample_product).
Proof.
  apply (get_download_for_no_match sample_product).
  intros d [<-|[<-|[<-|[]]]]; reflexivity.
Defined.

(* ------------------------------------------------------------------ *)
(** ** Decoding *)

Section DecoderFacts.

Variable json_loads : string -> option pyval.
Variable html_events : string -> list html_event.

(** A parser that has decoded nothing, fed a page that leaves it so,
    fails on the first subscript. *)
Lemma get_product_info_undecoded (self : TenablePageParser.t) (text : string) :
  TenablePageParser.decoded_json self = PNone ->
  TenablePageParser.decoded_json
    (TenablePageParser.feed json_loads html_events self text) = PNone ->
  TenablePageParser.get_product_info json_loads html_events self text = Raise TypeError.
Proof.
  intros H0 H1.
  unfold TenablePageParser.get_product_info.
  rewrite H0. cbn [is_none]. rewrite H1. reflexivity.
Qed.

End DecoderFacts.

(** C5: when the marked script of the page holds text that [json.loads]
    rejects, the decode error is swallowed but [decoded_json] stays [None];
    [get_product_info] then raises [TypeError] on its first subscript, and so
    does the selection query of the downloader: it neither returns an empty
    catalog nor ends in the no-match [ValueError]. *)
Theorem malformed_json_raises_type_error
  (json_loads : string -> option pyval)
  (html_events : string -> list html_event)
  (http_get : string -> Z * string)
  (body script : string) (os major_version arch os_type : pyval) :
  http_get "https://www.tenable.com/downloads/nessus-agents?loginAttempted=true"
    = (200%Z, body) ->
  html_events body =
    [ StartTag "script" [("id", Some "__NEXT_DATA__")]; Data script; EndTag "script" ] ->
  json_loads script = None ->
  TenablePageParser.get_product_info json_loads html_events TenablePageParser.new body
    = Raise TypeError /\
  TenableProductDownloader.get_nessus_agent_download_info json_loads html_events http_get
    TenableProductDownloader.new os major_version arch os_type
    = Raise TypeError.
Proof.
  intros Hget Hev Hjson.
  assert (Hinfo :
    TenablePageParser.get_product_info json_loads html_events TenablePageParser.new body
    = Raise TypeError).
  { apply get_product_info_undecoded; [reflexivity|].
    unfold TenablePageParser.feed. rewrite Hev.
    cbn [fold_left TenablePageParser.handle].
    unfold TenablePageParser.handle_starttag, TenablePageParser.handle_data,
      TenablePageParser.handle_endtag, TenablePageParser.new, TenablePageParser.init.
    cbn. rewrite Hjson. reflexivity. }
  split; [exact Hinfo|].
  unfold TenableProductDownloader.get_nessus_agent_download_info,
    TenableProductDownloader.nessus_agent_installer_info,
    TenableProductDownloader.nessus_agent_info,
    TenableProductDownloader.new,
    TenableProductDownloader.load_all_product_info,
    TenableProductDownloader.available_products.
  cbn [TenableProductDownloader.load].
  change (TenableProductDownloader.root_product_uri ++ "/" ++ "nessus-agents" ++
          "?loginAttempted=true")%string
    with "https://www.tenable.com/downloads/nessus-agents?loginAttempted=true".
  rewrite Hget. cbn [fst snd Z.eqb Pos.eqb].
  rewrite Hinfo. reflexivity.
Qed.

Lemma malformed_json_raises_type_error_witness :
  TenablePageParser.get_product_info sample_json_loads sample_html_events
    TenablePageParser.new broken_page
    = Raise TypeError /\
  TenableProductDownloader.get_nessus_agent_download_info
    sample_json_loads sample_html_events sample_http_get
    TenableProductDownloader.new (PStr "Ubuntu") (PStr "14") (PStr "x86_64") (PStr "Debian")
    = Raise TypeError.
Proof.
  apply (malformed_json_raises_type_error sample_json_loads sample_html_events
           sample_http_get broken_page "{oops"); reflexivity.
Defined.

(* ================================================================== *)
(** * Further properties *)

(* ------------------------------------------------------------------ *)
(** ** The equivalence loops in closed form *)

Lemma str_in_In (x : string) (xs : list string) : str_in x xs = true <-> In x xs.
Proof.
  unfold str_in. rewrite existsb_exists. split.
  - intros (y & Hy & E). apply String.eqb_eq in E. now subst.
  - intros H. exists x. split; [exact H | apply String.eqb_refl].
Qed.

Lemma alias_pairs_In (table : list (string * list string)) (x y : string) :
  In (x, y) (alias_pairs table) <->
  existsb (fun ga => (x =? fst ga) && str_in y (snd ga)) table = true.
Proof.
  unfold alias_pairs. rewrite in_flat_map, existsb_exists. split.
  - intros (ga & Hga & Hin). exists ga. split; [exact Hga|].
    apply in_map_iff in Hin as (z & E & Hz). injection E as <- <-.
    rewrite String.eqb_refl. now apply str_in_In.
  - intros (ga & Hga & H). exists ga. split; [exact Hga|].
    apply andb_true_iff in H as [E Hy].
    apply String.eqb_eq in E; subst x.
    apply in_map. now apply str_in_In.
Qed.

(** The architecture loop returns only from a [return True]. *)
Lemma arch_scan_closed (table : list (string * list string)) (x y : string) :
  Arch.scan table x y =
  if existsb (fun ga => (x =? fst ga) && str_in y (snd ga)) table
     || existsb (fun ga => (y =? fst ga) && str_in x (snd ga)) table
  then Some true else None.
Proof.
  induction table as [|[base aliases] table IH]; [reflexivity|].
  cbn [Arch.scan existsb fst snd]. rewrite IH.
  destruct ((x =? base) && str_in y aliases), ((y =? base) && str_in x aliases);
    cbn [orb]; try reflexivity; now rewrite orb_true_r.
Qed.

(** X1: two architecture strings are equivalent exactly when they are
    equal up to letter case or one is, up to letter case, a canonical name of
    the table and the other one of its aliases. *)
Theorem is_equivalent_architecture_spec (a b : string) :
  is_equivalent_architecture (PStr a) (PStr b) = Ok true <->
  lower a = lower b \/
  In (lower a, lower b) (alias_pairs Arch.equivalences) \/
  In (lower b, lower a) (alias_pairs Arch.equivalences).
Proof.
  unfold is_equivalent_architecture, py_lower, bind.
  rewrite arch_scan_closed, !alias_pairs_In.
  destruct (existsb (fun ga => (lower a =? fst ga) && str_in (lower b) (snd ga))
              Arch.equivalences) eqn:E1;
    destruct (existsb (fun ga => (lower b =? fst ga) && str_in (lower a) (snd ga))
                Arch.equivalences) eqn:E2; cbn [orb]; try tauto.
  split.
  - intros H. injection H as H. left. now apply String.eqb_eq.
  - intros [H|[H|H]]; try discriminate.
    rewrite H, String.eqb_refl. reflexivity.
Qed.

(** X2: two aliases of one canonical architecture are not equivalent to
    each other, and neither are two different canonical names: the relation
    links a canonical name with its own aliases only. *)
Theorem is_equivalent_architecture_not_transitive :
  is_equivalent_architecture (PStr "amd64") (PStr "x86_64") = Ok true /\
  is_equivalent_architecture (PStr "x86_64") (PStr "x86-64") = Ok true /\
  is_equivalent_architecture (PStr "amd64") (PStr "x86-64") = Ok false /\
  (forall a b : string,
     In (lower a) (map fst Arch.equivalences) ->
     In (lower b) (map fst Arch.equivalences) ->
     is_equivalent_architecture (PStr a) (PStr b) = Ok (lower a =? lower b)).
Proof.
  repeat split; try reflexivity.
  intros a b Ha Hb.
  unfold is_equivalent_architecture, py_lower, bind.
  cbn [Arch.equivalences map fst] in Ha, Hb.
  destruct Ha as [<-|[<-|[<-|[]]]]; destruct Hb as [<-|[<-|[<-|[]]]]; reflexivity.
Qed.

Lemma is_equivalent_architecture_not_transitive_witness :
  is_equivalent_architecture (PStr "X86_64") (PStr "AArch64") = Ok false.
Proof.
  destruct is_equivalent_architecture_not_transitive as (_ & _ & _ & H).
  apply (H "X86_64" "AArch64").
  - left. reflexivity.
  - right. right. left. reflexivity.
Defined.

(** A table in which no key a version-tested token can start with: the
    loop answers as soon as a group accepts, and only with true. *)
Lemma distro_scan_closed (table : list (string * list string))
  (d1 : string) (mv : pyval) (d2 : string) :
  (forall group aliases, In (group, aliases) table ->
     str_in d1 aliases = true -> startswith d2 group = true ->
     startswith d2 "el" = false) ->
  Distro.scan table d1 mv d2 =
  Ok (if existsb (group_accepts d1 d2) table then Some true else None).
Proof.
  induction table as [|[group aliases] table IH]; intros H; [reflexivity|].
  rewrite distro_scan_cons. cbn [existsb]. unfold group_accepts at 1. cbn [fst snd].
  assert (IH' : Distro.scan table d1 mv d2 =
                Ok (if existsb (group_accepts d1 d2) table then Some true else None)).
  { apply IH. intros g al Hin. apply H. now right. }
  destruct (str_in d1 aliases) eqn:Ha; cbn [andb orb]; [|exact IH'].
  destruct (startswith d2 group) eqn:Hg; cbn [orb]; [|exact IH'].
  now rewrite (H group aliases (or_introl eq_refl) Ha Hg).
Qed.

Lemma is_equivalent_distro_closed (d1 d2 : string) (mv : pyval) :
  str_in (lower d1) el_aliases = false ->
  is_equivalent_distro (PStr d1) mv (PStr d2) =
  Ok (existsb (group_accepts (lower d1) (lower d2)) Distro.equivalences).
Proof.
  intros Hel.
  unfold is_equivalent_distro, py_lower, bind at 1 2.
  rewrite (distro_scan_closed Distro.equivalences (lower d1) mv (lower d2)
             (other_groups_not_el (lower d1) (lower d2) Hel)).
  cbn [bind].
  now destruct (existsb (group_accepts (lower d1) (lower d2)) Distro.equivalences).
Qed.

(** X3: for a reported name outside the enterprise-Linux aliases, and any
    version value, the answer is true exactly when the name is an alias of a
    group whose key the lower-cased candidate starts with. *)
Theorem is_equivalent_distro_outside_el (d1 d2 : string) (mv : pyval) :
  str_in (lower d1) el_aliases = false ->
  is_equivalent_distro (PStr d1) mv (PStr d2) =
  Ok (existsb (group_accepts (lower d1) (lower d2)) Distro.equivalences).
Proof. exact (is_equivalent_distro_closed d1 d2 mv). Qed.

Lemma is_equivalent_distro_outside_el_witness :
  is_equivalent_distro (PStr "Kali") PNone (PStr "Debian12_amd64") =
  Ok (existsb (group_accepts (lower "Kali") (lower "Debian12_amd64")) Distro.equivalences).
Proof.
  apply (is_equivalent_distro_outside_el "Kali" "Debian12_amd64" PNone).
  reflexivity.
Defined.

Lemma existsb_unknown (d1 d2 : string) (table : list (string * list string)) :
  forallb (fun g => negb (str_in d1 (snd g))) table = true ->
  existsb (group_accepts d1 d2) table = false.
Proof.
  induction table as [|g table IH]; [reflexivity|].
  cbn [forallb existsb]. intros H.
  apply andb_true_iff in H as [Hg H].
  unfold group_accepts at 1.
  apply negb_true_iff in Hg. rewrite Hg. cbn [andb orb].
  now apply IH.
Qed.

(** X4: a reported name that is an alias of no group is equivalent to no
    candidate, not even to a candidate equal to it: there is no fall-back to
    string equality. *)
Theorem is_equivalent_distro_unknown (d1 d2 : string) (mv : pyval) :
  unknown_distro (lower d1) = true ->
  is_equivalent_distro (PStr d1) mv (PStr d2) = Ok false.
Proof.
  intros Hun.
  assert (Hel : str_in (lower d1) el_aliases = false).
  { unfold unknown_distro, Distro.equivalences in Hun. cbn [forallb snd] in Hun.
    apply andb_true_iff in Hun as [Hun _].
    now apply negb_true_iff in Hun. }
  rewrite (is_equivalent_distro_closed d1 d2 mv Hel).
  now rewrite (existsb_unknown (lower d1) (lower d2) Distro.equivalences Hun).
Qed.

Lemma is_equivalent_distro_unknown_witness :
  is_equivalent_distro (PStr "FreeBSD") (PStr "13") (PStr "freebsd") = Ok false.
Proof.
  apply (is_equivalent_distro_unknown "FreeBSD" "freebsd" (PStr "13")).
  reflexivity.
Defined.

(* ------------------------------------------------------------------ *)
(** ** The match predicate *)

(** X5: for an artifact whose name does not end in "dmg", a query with a
    string OS type matches exactly when the distribution check and the
    architecture check both return true; a check that raises counts as a
    mismatch. *)
Theorem is_match_spec
  (self : TenableDownloadInfo.t) (n os_type : string) (os major_version arch : pyval) :
  TenableDownloadInfo.name self = PStr n ->
  endswith n "dmg" = false ->
  TenableDownloadInfo.is_match self os major_version arch (PStr os_type) = true <->
  is_equivalent_distro os major_version
    (TenableInfoMetadata.os (TenableDownloadInfo.meta_data self)) = Ok true /\
  is_equivalent_architecture arch
    (TenableInfoMetadata.arch (TenableDownloadInfo.meta_data self)) = Ok true.
Proof.
  intros Hn Hdmg.
  unfold TenableDownloadInfo.is_match, TenableDownloadInfo.is_match_body.
  cbn [py_lower bind]. rewrite Hn. cbn [py_endswith]. rewrite Hdmg.
  assert (E : (if lower os_type =? "darwin" then Ok false else @Ok bool false) = Ok false)
    by now destruct (lower os_type =? "darwin").
  rewrite E. cbn [bind].
  destruct (is_equivalent_distro os major_version
              (TenableInfoMetadata.os (TenableDownloadInfo.meta_data self)))
    as [[|]|e]; cbn [bind except_false].
  - destruct (is_equivalent_architecture arch
                (TenableInfoMetadata.arch (TenableDownloadInfo.meta_data self)))
      as [[|]|e]; cbn [except_false]; split; try tauto; try discriminate;
      intros [_ H]; discriminate H.
  - split; [discriminate | intros [H _]; discriminate H].
  - split; [discriminate | intros [H _]; discriminate H].
Qed.

Lemma is_match_spec_witness :
  TenableDownloadInfo.is_match (nth 0 sample_downloads sample_dmg)
    (PStr "Ubuntu") (PStr "14") (PStr "x86_64") (PStr "Debian") = true <->
  is_equivalent_distro (PStr "Ubuntu") (PStr "14")
    (TenableInfoMetadata.os
       (TenableDownloadInfo.meta_data (nth 0 sample_downloads sample_dmg))) = Ok true /\
  is_equivalent_architecture (PStr "x86_64")
    (TenableInfoMetadata.arch
       (TenableDownloadInfo.meta_data (nth 0 sample_downloads sample_dmg))) = Ok true.
Proof.
  apply (is_match_spec (nth 0 sample_downloads sample_dmg)
           "NessusAgent-10.6.1-ubuntu1404_amd64.deb" "Debian"); reflexivity.
Defined.

(** No candidate that is the empty string starts with a group key. *)
Lemma distro_scan_empty_candidate (table : list (string * list string))
  (d1 : string) (mv : pyval) :
  (forall group aliases, In (group, aliases) table -> group <> "") ->
  Distro.scan table d1 mv "" = Ok None.
Proof.
  induction table as [|[group aliases] table IH]; intros H; [reflexivity|].
  rewrite distro_scan_cons.
  assert (Hg : startswith "" group = false).
  { destruct group; [now elim (H "" aliases (or_introl eq_refl)) | reflexivity]. }
  rewrite Hg.
  assert (IH' : Distro.scan table d1 mv "" = Ok None).
  { apply IH. intros g al Hin. apply (H g al). now right. }
  now destruct (str_in d1 aliases).
Qed.

Lemma is_equivalent_distro_empty_candidate (os mv : pyval) :
  is_equivalent_distro os mv (PStr "") = Ok false \/
  exists e, is_equivalent_distro os mv (PStr "") = Raise e.
Proof.
  unfold is_equivalent_distro.
  destruct (py_lower os) as [d1|e]; cbn [bind]; [|eauto].
  cbn [py_lower lower bind].
  rewrite distro_scan_empty_candidate.
  - left. reflexivity.
  - intros g al Hin. unfold Distro.equivalences in Hin.
    destruct Hin as [E|[E|[E|[E|[E|[]]]]]]; injection E as <- _; discriminate.
Qed.

Lemma is_match_empty_os
  (self : TenableDownloadInfo.t) (n : string) (os major_version arch os_type : pyval) :
  TenableDownloadInfo.name self = PStr n ->
  endswith n "dmg" = false ->
  TenableInfoMetadata.os (TenableDownloadInfo.meta_data self) = PStr "" \/
  TenableInfoMetadata.os (TenableDownloadInfo.meta_data self) = PNone ->
  TenableDownloadInfo.is_match self os major_version arch os_type = false.
Proof.
  intros Hn Hdmg Hos.
  unfold TenableDownloadInfo.is_match, TenableDownloadInfo.is_match_body.
  destruct (py_lower os_type) as [t|e]; cbn [bind except_false]; [|reflexivity].
  rewrite Hn. cbn [py_endswith]. rewrite Hdmg.
  assert (E : (if t =? "darwin" then Ok false else @Ok bool false) = Ok false)
    by now destruct (t =? "darwin").
  rewrite E. cbn [bind].
  destruct Hos as [-> | ->].
  - destruct (is_equivalent_distro_empty_candidate os major_version) as [-> | [e ->]];
      reflexivity.
  - unfold is_equivalent_distro.
    destruct (py_lower os); reflexivity.
Qed.

(** X6: an artifact whose [os] is the empty string or [None] matches a
    query only through the darwin rule: if its name does not end in "dmg" it
    matches no query at all. *)
Theorem is_match_unclassified
  (self : TenableDownloadInfo.t) (n : string) (os major_version arch os_type : pyval) :
  TenableDownloadInfo.name self = PStr n ->
  endswith n "dmg" = false ->
  TenableInfoMetadata.os (TenableDownloadInfo.meta_data self) = PStr "" \/
  TenableInfoMetadata.os (TenableDownloadInfo.meta_data self) = PNone ->
  TenableDownloadInfo.is_match self os major_version arch os_type = false.
Proof. exact (is_match_empty_os self n os major_version arch os_type). Qed.

Lemma is_match_unclassified_witness :
  TenableDownloadInfo.is_match
    (TenableDownloadInfo.Build PNone (PStr "") (PStr "NessusAgent-10.6.1-es7.x86_64.rpm")
       PNone (PStr "") (PStr "") (PStr "") (PStr "") PNone PNone PNone PNone (PStr "")
       (TenableInfoMetadata.Build (PStr "") (PStr "") (PStr "") (PStr "") (PStr "")
          (PStr "") (PStr "") (PStr "") (PStr "") (PStr "") (PStr "")))
    (PStr "CentOS") (PStr "7") (PStr "x86_64") (PStr "RedHat") = false.
Proof.
  apply (is_match_unclassified _ "NessusAgent-10.6.1-es7.x86_64.rpm");
    [reflexivity | reflexivity | left; reflexivity].
Defined.

(** X7: a major version that is not a string makes the version test raise,
    so an enterprise-Linux query with such a version matches no artifact whose
    [os] starts with "el" and whose name does not end in "dmg". *)
Theorem is_match_version_not_str
  (self : TenableDownloadInfo.t) (n d1 t : string) (major_version arch os_type : pyval) :
  TenableDownloadInfo.name self = PStr n ->
  endswith n "dmg" = false ->
  TenableInfoMetadata.os (TenableDownloadInfo.meta_data self) = PStr t ->
  startswith (lower t) "el" = true ->
  str_in (lower d1) el_aliases = true ->
  (forall s, major_version <> PStr s) ->
  is_equivalent_distro (PStr d1) major_version (PStr t) = Raise TypeError /\
  TenableDownloadInfo.is_match self (PStr d1) major_version arch os_type = false.
Proof.
  intros Hn Hdmg Hos Hel Hd1 Hmv.
  assert (Hd : is_equivalent_distro (PStr d1) major_version (PStr t) = Raise TypeError).
  { unfold is_equivalent_distro, py_lower, bind at 1 2.
    unfold Distro.equivalences. rewrite distro_scan_cons.
    unfold el_aliases, Distro.equivalences in Hd1.
    rewrite Hd1, Hel.
    destruct major_version; try reflexivity. now elim (Hmv s). }
  split; [exact Hd|].
  unfold TenableDownloadInfo.is_match, TenableDownloadInfo.is_match_body.
  destruct (py_lower os_type) as [u|e]; cbn [bind except_false]; [|reflexivity].
  rewrite Hn. cbn [py_endswith]. rewrite Hdmg.
  assert (E : (if u =? "darwin" then Ok false else @Ok bool false) = Ok false)
    by now destruct (u =? "darwin").
  rewrite E. cbn [bind]. rewrite Hos, Hd. reflexivity.
Qed.

Lemma is_match_version_not_str_witness :
  is_equivalent_distro (PStr "CentOS") (PInt 8) (PStr "el8") = Raise TypeError /\
  TenableDownloadInfo.is_match (nth 2 sample_downloads sample_dmg)
    (PStr "CentOS") (PInt 8) (PStr "x86_64") (PStr "RedHat") = false.
Proof.
  apply (is_match_version_not_str (nth 2 sample_downloads sample_dmg)
           "NessusAgent-10.6.1-el8.x86_64.rpm" "CentOS" "el8");
    try reflexivity.
  intros s; discriminate.
Defined.

(* ------------------------------------------------------------------ *)
(** ** Selection, read backwards *)

Lemma scan_ok_inv (self : TenableProductInfo.t) (rest : list TenableDownloadInfo.t)
  (os major_version arch os_type : pyval) (d : TenableDownloadInfo.t) :
  TenableProductInfo.scan self rest os major_version arch os_type = Ok d ->
  exists before after,
    rest = before ++ d :: after /\
    (forall x, In x before ->
       TenableDownloadInfo.is_match x os major_version arch os_type = false) /\
    TenableDownloadInfo.is_match d os major_version arch os_type = true.
Proof.
  induction rest as [|x rest IH]; cbn [TenableProductInfo.scan]; [discriminate|].
  destruct (TenableDownloadInfo.is_match x os major_version arch os_type) eqn:Ex.
  - intros H. injection H as <-.
    exists [], rest. repeat split; trivial. intros y [].
  - intros H. destruct (IH H) as (before & after & -> & Hb & Hd).
    exists (x :: before), after. repeat split; trivial.
    intros y [<-|Hy]; [exact Ex | now apply Hb].
Qed.

Lemma scan_raise_inv (self : TenableProductInfo.t) (rest : list TenableDownloadInfo.t)
  (os major_version arch os_type : pyval) (e : pyexc) :
  TenableProductInfo.scan self rest os major_version arch os_type = Raise e ->
  e = ValueError (NoMatch os major_version arch os_type
                    (TenableProductInfo.list_all_os_and_arch_options self)) /\
  forall x, In x rest ->
    TenableDownloadInfo.is_match x os major_version arch os_type = false.
Proof.
  induction rest as [|x rest IH]; cbn [TenableProductInfo.scan].
  - intros H. injection H as <-. split; [reflexivity | intros y []].
  - destruct (TenableDownloadInfo.is_match x os major_version arch os_type) eqn:Ex;
      [discriminate|].
    intros H. destruct (IH H) as [-> Hrest]. split; [reflexivity|].
    intros y [<-|Hy]; [exact Ex | now apply Hrest].
Qed.

(** X8: an artifact that selection returns belongs to the entry, matches
    the query, and no artifact before it in the entry matches. *)
Theorem get_download_for_sound
  (self : TenableProductInfo.t) (os major_version arch os_type : pyval)
  (d : TenableDownloadInfo.t) :
  TenableProductInfo.get_download_for self os major_version arch os_type = Ok d ->
  exists before after,
    TenableProductInfo.downloads self = before ++ d :: after /\
    (forall x, In x before ->
       TenableDownloadInfo.is_match x os major_version arch os_type = false) /\
    TenableDownloadInfo.is_match d os major_version arch os_type = true.
Proof. apply scan_ok_inv. Qed.

Lemma get_download_for_sound_witness :
  exists before after,
    TenableProductInfo.downloads sample_product =
      before ++ nth 2 sample_downloads sample_dmg :: after /\
    (forall x, In x before ->
       TenableDownloadInfo.is_match x (PStr "Rocky") (PStr "8") (PStr "amd64") (PStr "RedHat")
       = false) /\
    TenableDownloadInfo.is_match (nth 2 sample_downloads sample_dmg)
      (PStr "Rocky") (PStr "8") (PStr "amd64") (PStr "RedHat") = true.
Proof.
  apply (get_download_for_sound sample_product). reflexivity.
Defined.

(** X9: the only exception selection raises is the no-match [ValueError],
    and it raises it only when no artifact of the entry matches the query. *)
Theorem get_download_for_raises_only_no_match
  (self : TenableProductInfo.t) (os major_version arch os_type : pyval) (e : pyexc) :
  TenableProductInfo.get_download_for self os major_version arch os_type = Raise e ->
  e = ValueError (NoMatch os major_version arch os_type
                    (TenableProductInfo.list_all_os_and_arch_options self)) /\
  forall x, In x (TenableProductInfo.downloads self) ->
    TenableDownloadInfo.is_match x os major_version arch os_type = false.
Proof. apply scan_raise_inv. Qed.

Lemma get_download_for_raises_only_no_match_witness :
  ValueError (NoMatch (PStr "Ubuntu") (PStr "14") (PStr "riscv64") PNone
                (TenableProductInfo.list_all_os_and_arch_options sample_product)) =
  ValueError (NoMatch (PStr "Ubuntu") (PStr "14") (PStr "riscv64") PNone
                (TenableProductInfo.list_all_os_and_arch_options sample_product)) /\
  forall x, In x (TenableProductInfo.downloads sample_product) ->
    TenableDownloadInfo.is_match x (PStr "Ubuntu") (PStr "14") (PStr "riscv64") PNone = false.
Proof.
  apply (get_download_for_raises_only_no_match sample_product). reflexivity.
Defined.

(* ------------------------------------------------------------------ *)
(** ** Extraction, further *)

(** X10: extraction returns for every file name when [os] holds a string
    or [None]: no name, however malformed, makes it raise; and it raises
    [AttributeError] for a name that is not a string. *)
Theorem extract_returns :
  (forall (n : string) (md : TenableInfoMetadata.t),
     TenableInfoMetadata.os md = PNone \/
     (exists s, TenableInfoMetadata.os md = PStr s) ->
     exists md', TenableDownloadInfo.extract (PStr n) md = Ok md') /\
  (forall (v : pyval) (md : TenableInfoMetadata.t),
     (forall s, v <> PStr s) ->
     TenableDownloadInfo.extract v md = Raise AttributeError).
Proof.
  split.
  - intros n md [H|H]; apply extract_total.
    + right. left. now rewrite H.
    + right. right. exact H.
  - intros v md Hv. unfold TenableDownloadInfo.extract.
    destruct v; try reflexivity. now elim (Hv s).
Qed.

Lemma extract_returns_witness :
  (exists md',
     TenableDownloadInfo.extract (PStr "1.2.3-.-")
       (TenableInfoMetadata.Build PNone (PStr "") PNone (PStr "") PNone
          (PStr "") (PStr "") (PStr "") (PStr "") (PStr "") (PStr "")) = Ok md') /\
  TenableDownloadInfo.extract PNone (TenableDownloadInfo.meta_data sample_dmg)
  = Raise AttributeError.
Proof.
  destruct extract_returns as [Hret Hraise].
  split.
  - apply Hret. left. reflexivity.
  - apply Hraise. intros s; discriminate.
Defined.

Ltac extract_cases H :=
  repeat split_result H;
  repeat match goal with
         | E : Ok _ = Ok _ |- _ => injection E as <-
         | E : Raise _ = Ok _ |- _ => discriminate E
         | E : bind _ _ = Ok _ |- _ => split_result E
         | E : (if _ then _ else _) = Ok _ |- _ => split_result E
         end.

(** X11: extraction changes nothing but [os], [arch] and [os_type]: the
    digests, product, version and date fields of the metadata pass through. *)
Theorem extract_passthrough (n : string) (md md' : TenableInfoMetadata.t) :
  TenableDownloadInfo.extract (PStr n) md = Ok md' ->
  TenableInfoMetadata.md5 md' = TenableInfoMetadata.md5 md /\
  TenableInfoMetadata.sha256 md' = TenableInfoMetadata.sha256 md /\
  TenableInfoMetadata.product md' = TenableInfoMetadata.product md /\
  TenableInfoMetadata.version md' = TenableInfoMetadata.version md /\
  TenableInfoMetadata.product_type md' = TenableInfoMetadata.product_type md /\
  TenableInfoMetadata.release_date md' = TenableInfoMetadata.release_date md /\
  TenableInfoMetadata.product_notes md' = TenableInfoMetadata.product_notes md /\
  TenableInfoMetadata.product_release_date md' =
    TenableInfoMetadata.product_release_date md.
Proof.
  unfold TenableDownloadInfo.extract. cbn [py_endswith bind].
  intros H.
  destruct (endswith n "dmg").
  { injection H as <-. repeat split. }
  destruct (endswith n "tar.gz").
  { injection H as <-. repeat split. }
  destruct (Re.search name_pattern n) as [m|].
  2:{ injection H as <-. repeat split. }
  extract_cases H; repeat split.
Qed.

Lemma extract_passthrough_witness :
  let md := TenableInfoMetadata.Build PNone (PStr "fe9b") PNone (PStr "0ea2") PNone
              (PStr "Nessus Agents - 10.6.1") (PStr "10.6.1") (PStr "default")
              (PStr "2024-04-04") PNone (PStr "2024-04-05") in
  let md' := TenableInfoMetadata.Build (PStr "ubuntu1404") (PStr "fe9b") (PStr "amd64")
               (PStr "0ea2") (PStr "linux")
               (PStr "Nessus Agents - 10.6.1") (PStr "10.6.1") (PStr "default")
               (PStr "2024-04-04") PNone (PStr "2024-04-05") in
  TenableInfoMetadata.md5 md' = TenableInfoMetadata.md5 md /\
  TenableInfoMetadata.sha256 md' = TenableInfoMetadata.sha256 md /\
  TenableInfoMetadata.product md' = TenableInfoMetadata.product md /\
  TenableInfoMetadata.version md' = TenableInfoMetadata.version md /\
  TenableInfoMetadata.product_type md' = TenableInfoMetadata.product_type md /\
  TenableInfoMetadata.release_date md' = TenableInfoMetadata.release_date md /\
  TenableInfoMetadata.product_notes md' = TenableInfoMetadata.product_notes md /\
  TenableInfoMetadata.product_release_date md' =
    TenableInfoMetadata.product_release_date md.
Proof.
  intros md md'.
  apply (extract_passthrough "NessusAgent-10.6.1-ubuntu1404_amd64.deb" md md').
  vm_compute; reflexivity.
Defined.

(** X12: from an [os_type] of [None], extraction yields "darwin", "linux"
    or "windows", or leaves the whole metadata as it was; it yields "windows"
    only beside an [os] that starts with "win" in some letter case. *)
Theorem extract_os_type_classes (n : string) (md md' : TenableInfoMetadata.t) :
  TenableDownloadInfo.extract (PStr n) md = Ok md' ->
  TenableInfoMetadata.os_type md = PNone ->
  (TenableInfoMetadata.os_type md' = PStr "darwin" \/
   TenableInfoMetadata.os_type md' = PStr "linux" \/
   (TenableInfoMetadata.os_type md' = PStr "windows" /\
    exists s, TenableInfoMetadata.os md' = PStr s /\ startswith (lower s) "win" = true) \/
   md' = md).
Proof.
  unfold TenableDownloadInfo.extract. cbn [py_endswith bind].
  intros H Hty.
  destruct (endswith n "dmg").
  { injection H as <-. left. reflexivity. }
  destruct (endswith n "tar.gz").
  { injection H as <-. right. left. reflexivity. }
  destruct (Re.search name_pattern n) as [m|].
  2:{ injection H as <-. right. right. right. reflexivity. }
  extract_cases H;
    cbn [TenableInfoMetadata.set_os TenableInfoMetadata.set_arch
         TenableInfoMetadata.set_os_type TenableInfoMetadata.os
         TenableInfoMetadata.arch TenableInfoMetadata.os_type] in *;
    try (rewrite Hty in *; discriminate);
    try (right; left; reflexivity);
    right; right; left; (split; [reflexivity|]);
    match goal with
    | E : py_lower ?v = Ok _, W : startswith _ "win" = true |- _ =>
        destruct v; try discriminate E; injection E as <-; eauto
    end.
Qed.

Lemma extract_os_type_classes_witness :
  let md := TenableInfoMetadata.Build PNone (PStr "") PNone (PStr "") PNone
              (PStr "") (PStr "") (PStr "") (PStr "") (PStr "") (PStr "") in
  let md' := TenableInfoMetadata.Build (PStr "Win32") (PStr "") PNone (PStr "") (PStr "windows")
              (PStr "") (PStr "") (PStr "") (PStr "") (PStr "") (PStr "") in
  (TenableInfoMetadata.os_type md' = PStr "darwin" \/
   TenableInfoMetadata.os_type md' = PStr "linux" \/
   (TenableInfoMetadata.os_type md' = PStr "windows" /\
    exists s, TenableInfoMetadata.os md' = PStr s /\ startswith (lower s) "win" = true) \/
   md' = md).
Proof.
  intros md md'.
  apply (extract_os_type_classes "Nessus-10.6.1-Win32.msi" md md').
  - vm_compute; reflexivity.
  - reflexivity.
Defined.

(* ------------------------------------------------------------------ *)
(** ** The two patterns *)

Lemma ahead_refl (cur : Re.cursor) : ahead cur cur.
Proof. now exists []. Qed.

Lemma ahead_trans (c1 c2 c3 : Re.cursor) : ahead c1 c2 -> ahead c2 c3 -> ahead c1 c3.
Proof.
  intros [t1 H1] [t2 H2]. exists (t1 ++ t2). now rewrite H1, H2, app_assoc.
Qed.

Lemma greedy_ahead (cs : Re.cset) (aft bef : list ascii) (caps : Re.captures)
  (k : Re.kont) (res : Re.cursor * Re.captures) :
  Re.greedy cs bef aft caps k = Some res ->
  exists cur', k cur' caps = Some res /\ ahead (Re.Cursor bef aft) cur'.
Proof.
  revert bef.
  induction aft as [|c aft IH]; intros bef H; cbn [Re.greedy] in H.
  - eauto using ahead_refl.
  - destruct (Re.mem cs c); [|eauto using ahead_refl].
    destruct (Re.greedy cs (c :: bef) aft caps k) eqn:E.
    + injection H as <-. apply IH in E as (cur' & Hk & [t Ht]).
      exists cur'. split; [exact Hk|]. exists (c :: t). cbn in *. now rewrite Ht.
    + eauto using ahead_refl.
Qed.

Lemma run_ahead (r : Re.regex) :
  forall (cur : Re.cursor) (caps : Re.captures) (k : Re.kont)
         (res : Re.cursor * Re.captures),
    Re.run r cur caps k = Some res ->
    exists cur' caps', k cur' caps' = Some res /\ ahead cur cur'.
Proof.
  induction r as [cs|cs|cs|r1 IH1 r2 IH2|r1 IH1 r2 IH2|name r IH| |x|x];
    intros [bef aft] caps k res H; cbn [Re.run Re.after Re.before] in H.
  - destruct aft as [|c aft]; [discriminate|].
    destruct (Re.mem cs c); [|discriminate].
    exists (Re.Cursor (c :: bef) aft), caps. split; [exact H|]. now exists [c].
  - destruct aft as [|c aft]; [discriminate|].
    destruct (Re.mem cs c); [|discriminate].
    apply greedy_ahead in H as (cur' & H & [t Ht]).
    exists cur', caps. split; [exact H|]. exists (c :: t). cbn in *. now rewrite Ht.
  - apply greedy_ahead in H as (cur' & H & Ha). eauto.
  - apply IH1 in H as (cur1 & caps1 & H & A1).
    apply IH2 in H as (cur2 & caps2 & H & A2).
    eauto using ahead_trans.
  - destruct (Re.run r1 (Re.Cursor bef aft) caps k) eqn:E.
    + injection H as <-. eapply IH1, E.
    + eapply IH2, H.
  - apply IH in H as (cur1 & caps1 & H & A1). eauto.
  - destruct aft as [|c [|c' aft]]; try discriminate.
    + eauto using ahead_refl.
    + destruct (Ascii.eqb c "010"); [|discriminate]. eauto using ahead_refl.
  - destruct bef as [|c bef]; [eauto using ahead_refl|].
    destruct (Ascii.eqb c x); [discriminate|]. eauto using ahead_refl.
  - destruct aft as [|c aft]; [eauto using ahead_refl|].
    destruct (Ascii.eqb c x); [discriminate|]. eauto using ahead_refl.
Qed.

Lemma reads_lit (c : ascii) : reads (Re.lit c) c.
Proof.
  intros [bef aft] caps k res H. unfold Re.lit in H.
  cbn [Re.run Re.after Re.mem] in H. cbn [Re.after].
  destruct aft as [|x aft]; [discriminate|].
  destruct (Ascii.eqb x c) eqn:E; [|discriminate].
  apply Ascii.eqb_eq in E. subst x. now left.
Qed.

Lemma reads_seq_l (c : ascii) (r1 r2 : Re.regex) : reads r1 c -> reads (Re.Seq r1 r2) c.
Proof.
  intros R cur caps k res H. cbn [Re.run] in H. exact (R _ _ _ _ H).
Qed.

Lemma reads_seq_r (c : ascii) (r1 r2 : Re.regex) : reads r2 c -> reads (Re.Seq r1 r2) c.
Proof.
  intros R cur caps k res H. cbn [Re.run] in H.
  apply run_ahead in H as (cur1 & caps1 & H & [t Ht]).
  apply R in H. rewrite Ht. apply in_or_app. now right.
Qed.

Lemma name_pattern_reads_hyphen : reads name_pattern "-".
Proof.
  unfold name_pattern. apply reads_seq_r, reads_seq_l, reads_lit.
Qed.

Lemma search_from_reads (r : Re.regex) (c : ascii) (aft bef : list ascii) :
  reads r c -> ~ In c aft -> Re.search_from r bef aft = None.
Proof.
  intros R. revert bef.
  induction aft as [|x aft IH]; intros bef Hc; cbn [Re.search_from].
  - destruct (Re.run r (Re.Cursor bef []) [] (fun cur caps => Some (cur, caps)))
      as [[cur' caps]|] eqn:E; [|reflexivity].
    apply R in E. destruct E.
  - destruct (Re.run r (Re.Cursor bef (x :: aft)) [] (fun cur caps => Some (cur, caps)))
      as [[cur' caps]|] eqn:E.
    + apply R in E. now elim Hc.
    + apply IH. intros Hin. apply Hc. now right.
Qed.

(** X13: a file name without a hyphen is never classified: unless it ends
    in "dmg" or "tar.gz", extraction returns the metadata unchanged. *)
Theorem extract_needs_hyphen (n : string) (md : TenableInfoMetadata.t) :
  ~ In "-"%char (list_ascii_of_string n) ->
  endswith n "dmg" = false ->
  endswith n "tar.gz" = false ->
  TenableDownloadInfo.extract (PStr n) md = Ok md.
Proof.
  intros Hh Hdmg Htar.
  unfold TenableDownloadInfo.extract. cbn [py_endswith bind].
  rewrite Hdmg, Htar. unfold Re.search.
  now rewrite (search_from_reads name_pattern "-" _ [] name_pattern_reads_hyphen Hh).
Qed.

Lemma extract_needs_hyphen_witness :
  TenableDownloadInfo.extract (PStr "NessusAgent_10.6.1_ubuntu1404_amd64.deb")
    (TenableInfoMetadata.Build PNone (PStr "") PNone (PStr "") PNone
       (PStr "") (PStr "") (PStr "") (PStr "") (PStr "") (PStr ""))
  = Ok (TenableInfoMetadata.Build PNone (PStr "") PNone (PStr "") PNone
          (PStr "") (PStr "") (PStr "") (PStr "") (PStr "") (PStr "")).
Proof.
  apply extract_needs_hyphen; [|reflexivity|reflexivity].
  cbn [list_ascii_of_string In].
  intros H. repeat (destruct H as [H|H]; [discriminate H|]). exact H.
Defined.

Lemma string_of_list_ascii_app (l1 l2 : list ascii) :
  string_of_list_ascii (l1 ++ l2) =
  (string_of_list_ascii l1 ++ string_of_list_ascii l2)%string.
Proof.
  induction l1 as [|c l1 IH]; cbn [app string_of_list_ascii append]; [reflexivity|].
  now rewrite IH.
Qed.

(** One step of the separator pattern: it takes exactly one character, a
    dot or an underscore, that has no twin on either side. *)
Lemma separator_step (bef aft : list ascii) (res : Re.cursor * Re.captures) :
  Re.run separator_pattern (Re.Cursor bef aft) [] (fun cur caps => Some (cur, caps))
    = Some res ->
  exists c rest,
    aft = c :: rest /\ (c = "."%char \/ c = "_"%char) /\
    fst res = Re.Cursor (c :: bef) rest /\
    hd_error bef <> Some c /\ hd_error rest <> Some c.
Proof.
  unfold separator_pattern, Re.lit.
  cbn [Re.run Re.before Re.after Re.mem].
  intros H.
  assert (Hside : forall x (l : list ascii),
            match l with
            | [] => true
            | c :: _ => negb (Ascii.eqb c x)
            end = true -> hd_error l <> Some x).
  { intros x [|c l] E; cbn; [discriminate|].
    intros Heq. injection Heq as ->. now rewrite Ascii.eqb_refl in E. }
  destruct aft as [|c rest].
  { destruct bef as [|b bef]; [discriminate|].
    destruct (Ascii.eqb b "."), (Ascii.eqb b "_"); discriminate. }
  assert (Hdot :
    (match bef with [] => true | b :: _ => negb (Ascii.eqb b ".") end) = true ->
    Ascii.eqb c "." = true ->
    (match rest with [] => true | d :: _ => negb (Ascii.eqb d ".") end) = true ->
    exists c0 rest0, c :: rest = c0 :: rest0 /\ (c0 = "."%char \/ c0 = "_"%char) /\
      Re.Cursor (c :: bef) rest = Re.Cursor (c0 :: bef) rest0 /\
      hd_error bef <> Some c0 /\ hd_error rest0 <> Some c0).
  { intros Hb Hc Hr. apply Ascii.eqb_eq in Hc. subst c.
    exists "."%char, rest. repeat split; auto. }
  assert (Hund :
    (match bef with [] => true | b :: _ => negb (Ascii.eqb b "_") end) = true ->
    Ascii.eqb c "_" = true ->
    (match rest with [] => true | d :: _ => negb (Ascii.eqb d "_") end) = true ->
    exists c0 rest0, c :: rest = c0 :: rest0 /\ (c0 = "."%char \/ c0 = "_"%char) /\
      Re.Cursor (c :: bef) rest = Re.Cursor (c0 :: bef) rest0 /\
      hd_error bef <> Some c0 /\ hd_error rest0 <> Some c0).
  { intros Hb Hc Hr. apply Ascii.eqb_eq in Hc. subst c.
    exists "_"%char, rest. repeat split; auto. }
  destruct bef as [|b bef]; destruct rest as [|d rest];
    cbn [Re.before Re.after] in H;
    repeat match type of H with
           | context [Ascii.eqb ?x ?y] =>
               let E := fresh "E" in destruct (Ascii.eqb x y) eqn:E
           end;
    try discriminate H;
    injection H as <-; cbn [fst];
    first [ apply Hdot; cbn [negb]; congruence
          | apply Hund; cbn [negb]; congruence ].
Qed.

Lemma separator_search (aft bef : list ascii) (m : Re.match_object) :
  Re.search_from separator_pattern bef aft = Some m ->
  exists skipped c rest,
    aft = skipped ++ c :: rest /\ (c = "."%char \/ c = "_"%char) /\
    Re.m_start m = Re.Cursor (rev skipped ++ bef) (c :: rest) /\
    Re.m_end m = Re.Cursor (c :: rev skipped ++ bef) rest /\
    hd_error (rev skipped ++ bef) <> Some c /\ hd_error rest <> Some c.
Proof.
  revert bef.
  induction aft as [|x aft IH]; intros bef H; cbn [Re.search_from] in H.
  - destruct (Re.run separator_pattern (Re.Cursor bef []) []
                (fun cur caps => Some (cur, caps))) as [[cur' caps]|] eqn:E;
      [|discriminate].
    apply separator_step in E as (c & rest & E & _). discriminate E.
  - destruct (Re.run separator_pattern (Re.Cursor bef (x :: aft)) []
                (fun cur caps => Some (cur, caps))) as [[cur' caps]|] eqn:E.
    + injection H as <-.
      apply separator_step in E as (c & rest & E & Hc & Hend & Hb & Hr).
      injection E as <- <-. cbn [fst] in Hend. subst cur'.
      exists [], x, aft. cbn [Re.m_start Re.m_end rev app]. repeat split; auto.
    + apply IH in H as (skipped & c & rest & -> & Hc & Hs & He & Hb & Hr).
      exists (x :: skipped), c, rest. cbn [rev app].
      rewrite <- !app_assoc. cbn [app]. repeat split; auto.
Qed.

(** X14: splitting a platform token either finds no separator and returns
    the token alone, or returns two parts that, joined by one dot or one
    underscore, give the token back; that separator is not doubled: the first
    part does not end with it and the second does not start with it. *)
Theorem split1_separator_spec (s : string) :
  Re.split1 separator_pattern s = [s] \/
  exists (a b : string) (c : ascii),
    Re.split1 separator_pattern s = [a; b] /\
    s = (a ++ String c b)%string /\
    (c = "."%char \/ c = "_"%char) /\
    hd_error (rev (list_ascii_of_string a)) <> Some c /\
    hd_error (list_ascii_of_string b) <> Some c.
Proof.
  unfold Re.split1, Re.search.
  destruct (Re.search_from separator_pattern [] (list_ascii_of_string s)) as [m|] eqn:E;
    [right | now left].
  apply separator_search in E as (skipped & c & rest & Hs & Hc & Hst & Hen & Hb & Hr).
  rewrite app_nil_r in Hst, Hen, Hb.
  exists (string_of_list_ascii skipped), (string_of_list_ascii rest), c.
  rewrite Hst, Hen. cbn [Re.before Re.after]. rewrite rev_involutive.
  split; [reflexivity|].
  split.
  - rewrite <- (string_of_list_ascii_of_string s), Hs.
    now rewrite string_of_list_ascii_app.
  - rewrite !list_ascii_of_string_of_list_ascii. auto.
Qed.

(* ------------------------------------------------------------------ *)
(** ** Constructors and keyword arguments *)

Lemma bind_params_default (sig : signature) (kw a : kwargs) (p : string) (v : pyval) :
  bind_params sig kw = Ok a ->
  lookup p kw = None ->
  default_of sig p = Some v ->
  arg a p = v.
Proof.
  revert a.
  induction sig as [|[p0 default] sig IH]; intros a H Hl Hd; [discriminate|].
  cbn [bind_params] in H. cbn [default_of] in Hd.
  destruct (match lookup p0 kw, default with
            | Some v0, _ => Ok v0
            | None, Some v0 => Ok v0
            | None, None => Raise TypeError
            end) as [v0|] eqn:E0; [|discriminate].
  cbn [bind] in H.
  destruct (bind_params sig kw) as [frame|]; [|discriminate].
  injection H as <-.
  unfold arg; cbn [lookup].
  destruct (p0 =? p) eqn:Ep.
  - apply String.eqb_eq in Ep; subst p0.
    rewrite Hl, Hd in E0. now injection E0.
  - now apply IH.
Qed.

Lemma call_kwargs_given (sig : signature) (kw a : kwargs) (p : string) (v : pyval) :
  call_kwargs sig kw = Ok a ->
  known sig p = true ->
  default_of sig p = Some v ->
  arg a p = given kw p v.
Proof.
  intros H Hk Hd. unfold given.
  destruct (lookup p kw) as [w|] eqn:El.
  - exact (call_kwargs_arg sig kw a p w H Hk El).
  - unfold call_kwargs in H.
    destruct (forallb (known sig) (map fst kw)); [|discriminate].
    exact (bind_params_default sig kw a p v H El Hd).
Qed.

Lemma call_kwargs_unknown (sig : signature) (kw : kwargs) (k : string) :
  In k (map fst kw) -> known sig k = false -> call_kwargs sig kw = Raise TypeError.
Proof.
  intros Hin Hk. unfold call_kwargs.
  destruct (forallb (known sig) (map fst kw)) eqn:E; [|reflexivity].
  rewrite forallb_forall in E. rewrite (E k Hin) in Hk. discriminate.
Qed.

Lemma bind_params_optional (sig : signature) (kw : kwargs) :
  all_optional sig = true -> exists a, bind_params sig kw = Ok a.
Proof.
  induction sig as [|[p default] sig IH]; cbn [all_optional forallb snd bind_params];
    intros H; [eauto|].
  apply andb_true_iff in H as [Hd H].
  destruct (IH H) as [frame ->].
  destruct default as [v|]; [|discriminate].
  destruct (lookup p kw); cbn [bind]; eauto.
Qed.

(** What a successful construction went through. *)
Lemma init_inv (kw : kwargs) (d : TenableDownloadInfo.t) :
  TenableDownloadInfo.init kw = Ok d ->
  exists (a mdkw : kwargs) (md md' : TenableInfoMetadata.t) (n : string),
    call_kwargs TenableDownloadInfo.params kw = Ok a /\
    as_mapping (if is_none (arg a "meta_data") then PDict [] else arg a "meta_data")
      = Ok mdkw /\
    TenableInfoMetadata.init mdkw = Ok md /\
    arg a "name" = PStr n /\
    TenableDownloadInfo.extract (PStr n) md = Ok md' /\
    d = TenableDownloadInfo.Build
          (arg a "id") (arg a "file") (arg a "name") (arg a "size")
          (arg a "description") (arg a "sort_order") (arg a "created_at")
          (arg a "updated_at") (arg a "page_id") (arg a "publish")
          (arg a "required_auth") (arg a "disabled") (arg a "type") md'.
Proof.
  intros H. unfold TenableDownloadInfo.init in H.
  destruct (call_kwargs TenableDownloadInfo.params kw) as [a|] eqn:Ea; [|discriminate].
  cbn [bind] in H.
  destruct (as_mapping (if is_none (arg a "meta_data") then PDict []
                        else arg a "meta_data")) as [mdkw|] eqn:Em; [|discriminate].
  cbn [bind] in H.
  destruct (TenableInfoMetadata.init mdkw) as [md|] eqn:Ei; [|discriminate].
  cbn [bind] in H.
  destruct (TenableDownloadInfo.extract (arg a "name") md) as [md'|] eqn:Ex;
    [|discriminate].
  cbn [bind] in H. injection H as <-.
  destruct (arg a "name") as [| | | |n| |] eqn:En; try discriminate Ex.
  exists a, mdkw, md, md', n. repeat split; trivial.
  now rewrite En.
Qed.

(** X15: a catalog entry with a field the constructor does not name is
    rejected with [TypeError], for an artifact, for its metadata and for a
    product line alike. *)
Theorem init_unknown_field :
  (forall (kw : kwargs) (k : string),
     In k (map fst kw) -> known TenableDownloadInfo.params k = false ->
     TenableDownloadInfo.init kw = Raise TypeError) /\
  (forall (kw mdkw : kwargs) (k : string),
     forallb (known TenableDownloadInfo.params) (map fst kw) = true ->
     lookup "meta_data" kw = Some (PDict mdkw) ->
     In k (map fst mdkw) -> known TenableInfoMetadata.params k = false ->
     TenableDownloadInfo.init kw = Raise TypeError) /\
  (forall (kw : kwargs) (k : string),
     In k (map fst kw) -> known TenableProductInfo.params k = false ->
     TenableProductInfo.init kw = Raise TypeError).
Proof.
  split; [|split].
  - intros kw k Hin Hk. unfold TenableDownloadInfo.init.
    now rewrite (call_kwargs_unknown _ kw k Hin Hk).
  - intros kw mdkw k Hkw Hmd Hin Hk. unfold TenableDownloadInfo.init.
    destruct (bind_params_optional TenableDownloadInfo.params kw eq_refl) as [a Ha].
    assert (Ea : call_kwargs TenableDownloadInfo.params kw = Ok a).
    { unfold call_kwargs. now rewrite Hkw. }
    rewrite Ea. cbn [bind].
    rewrite (call_kwargs_arg _ _ _ "meta_data" _ Ea eq_refl Hmd).
    cbn [is_none as_mapping bind]. unfold TenableInfoMetadata.init.
    now rewrite (call_kwargs_unknown _ mdkw k Hin Hk).
  - intros kw k Hin Hk. unfold TenableProductInfo.init.
    now rewrite (call_kwargs_unknown _ kw k Hin Hk).
Qed.

Lemma init_unknown_field_witness :
  TenableDownloadInfo.init [("name", PStr "a-1.2.3-el8.rpm"); ("checksum", PStr "ab")]
    = Raise TypeError /\
  TenableDownloadInfo.init
    [("name", PStr "a-1.2.3-el8.rpm"); ("meta_data", PDict [("sha512", PStr "ab")])]
    = Raise TypeError /\
  TenableProductInfo.init
    [("product_name", PStr "p"); ("sort_order", PNone); ("downloads", PList []);
     ("eol", PBool false)]
    = Raise TypeError.
Proof.
  destruct init_unknown_field as (H1 & H2 & H3).
  split; [|split].
  - apply (H1 _ "checksum"); [right; left; reflexivity | reflexivity].
  - apply (H2 _ [("sha512", PStr "ab")] "sha512");
      [reflexivity | reflexivity | left; reflexivity | reflexivity].
  - apply (H3 _ "eol"); [do 3 right; left; reflexivity | reflexivity].
Defined.

(** X16: a constructed artifact carries each field of its entry verbatim,
    and the constructor's default for each field the entry does not give:
    [None] for [id], [size], [page_id], [publish], [required_auth] and
    [disabled], the empty string for the others. *)
Theorem init_fields_verbatim (kw : kwargs) (d : TenableDownloadInfo.t) :
  TenableDownloadInfo.init kw = Ok d ->
  TenableDownloadInfo.id d = given kw "id" PNone /\
  TenableDownloadInfo.file d = given kw "file" (PStr "") /\
  TenableDownloadInfo.name d = given kw "name" (PStr "") /\
  TenableDownloadInfo.size d = given kw "size" PNone /\
  TenableDownloadInfo.description d = given kw "description" (PStr "") /\
  TenableDownloadInfo.sort_order d = given kw "sort_order" (PStr "") /\
  TenableDownloadInfo.created_at d = given kw "created_at" (PStr "") /\
  TenableDownloadInfo.updated_at d = given kw "updated_at" (PStr "") /\
  TenableDownloadInfo.page_id d = given kw "page_id" PNone /\
  TenableDownloadInfo.publish d = given kw "publish" PNone /\
  TenableDownloadInfo.required_auth d = given kw "required_auth" PNone /\
  TenableDownloadInfo.disabled d = given kw "disabled" PNone /\
  TenableDownloadInfo.type d = given kw "type" (PStr "").
Proof.
  intros H.
  apply init_inv in H as (a & mdkw & md & md' & n & Ea & _ & _ & _ & _ & ->).
  cbn [TenableDownloadInfo.id TenableDownloadInfo.file TenableDownloadInfo.name
       TenableDownloadInfo.size TenableDownloadInfo.description
       TenableDownloadInfo.sort_order TenableDownloadInfo.created_at
       TenableDownloadInfo.updated_at TenableDownloadInfo.page_id
       TenableDownloadInfo.publish TenableDownloadInfo.required_auth
       TenableDownloadInfo.disabled TenableDownloadInfo.type].
  repeat split; apply (call_kwargs_given _ _ _ _ _ Ea); reflexivity.
Qed.

Lemma init_fields_verbatim_witness :
  TenableDownloadInfo.id sample_dmg = given [("name", PStr "NessusAgent-10.6.1.dmg")] "id" PNone /\
  TenableDownloadInfo.file sample_dmg
    = given [("name", PStr "NessusAgent-10.6.1.dmg")] "file" (PStr "") /\
  TenableDownloadInfo.name sample_dmg
    = given [("name", PStr "NessusAgent-10.6.1.dmg")] "name" (PStr "") /\
  TenableDownloadInfo.size sample_dmg
    = given [("name", PStr "NessusAgent-10.6.1.dmg")] "size" PNone /\
  TenableDownloadInfo.description sample_dmg
    = given [("name", PStr "NessusAgent-10.6.1.dmg")] "description" (PStr "") /\
  TenableDownloadInfo.sort_order sample_dmg
    = given [("name", PStr "NessusAgent-10.6.1.dmg")] "sort_order" (PStr "") /\
  TenableDownloadInfo.created_at sample_dmg
    = given [("name", PStr "NessusAgent-10.6.1.dmg")] "created_at" (PStr "") /\
  TenableDownloadInfo.updated_at sample_dmg
    = given [("name", PStr "NessusAgent-10.6.1.dmg")] "updated_at" (PStr "") /\
  TenableDownloadInfo.page_id sample_dmg
    = given [("name", PStr "NessusAgent-10.6.1.dmg")] "page_id" PNone /\
  TenableDownloadInfo.publish sample_dmg
    = given [("name", PStr "NessusAgent-10.6.1.dmg")] "publish" PNone /\
  TenableDownloadInfo.required_auth sample_dmg
    = given [("name", PStr "NessusAgent-10.6.1.dmg")] "required_auth" PNone /\
  TenableDownloadInfo.disabled sample_dmg
    = given [("name", PStr "NessusAgent-10.6.1.dmg")] "disabled" PNone /\
  TenableDownloadInfo.type sample_dmg
    = given [("name", PStr "NessusAgent-10.6.1.dmg")] "type" (PStr "").
Proof.
  apply (init_fields_verbatim [("name", PStr "NessusAgent-10.6.1.dmg")] sample_dmg).
  vm_compute; reflexivity.
Defined.

(** X17: an artifact built from an entry without [meta_data] has the empty
    string as [os], so a query matches it exactly when the query is for the
    darwin family and the artifact's name ends in "dmg". *)
Theorem init_without_metadata_matches_only_darwin
  (kw : kwargs) (d : TenableDownloadInfo.t) (os major_version arch os_type : pyval) :
  TenableDownloadInfo.init kw = Ok d ->
  lookup "meta_data" kw = None ->
  TenableInfoMetadata.os (TenableDownloadInfo.meta_data d) = PStr "" /\
  (TenableDownloadInfo.is_match d os major_version arch os_type = true <->
   darwin_dmg d os_type).
Proof.
  intros H Hmd.
  apply init_inv in H as (a & mdkw & md & md' & n & Ea & Em & Ei & En & Ex & ->).
  assert (Hm : arg a "meta_data" = PNone).
  { rewrite (call_kwargs_given _ _ _ "meta_data" PNone Ea eq_refl eq_refl).
    unfold given. now rewrite Hmd. }
  rewrite Hm in Em. cbn [is_none as_mapping] in Em. injection Em as <-.
  vm_compute in Ei. injection Ei as <-.
  assert (Hos : TenableInfoMetadata.os md' = PStr "").
  { destruct (extract_frame n _ md' Ex) as (Hos & _). now apply Hos. }
  rewrite En.
  set (d := TenableDownloadInfo.Build _ _ _ _ _ _ _ _ _ _ _ _ _ _).
  assert (Hn : TenableDownloadInfo.name d = PStr n) by reflexivity.
  assert (Hd : TenableInfoMetadata.os (TenableDownloadInfo.meta_data d) = PStr "")
    by exact Hos.
  split; [exact Hd|].
  clearbody d. unfold darwin_dmg. rewrite Hn.
  destruct (endswith n "dmg") eqn:Edmg.
  - unfold TenableDownloadInfo.is_match, TenableDownloadInfo.is_match_body.
    rewrite Hn, Hd. cbn [py_endswith]. rewrite Edmg.
    destruct os_type as [| | | |s| |]; cbn [py_lower bind except_false];
      try (split; [discriminate | intros (s0 & n0 & E & _); discriminate E]).
    destruct (lower s =? "darwin") eqn:Ed; cbn [bind except_false].
    + apply String.eqb_eq in Ed. split; [|reflexivity].
      intros _. exists s, n. auto.
    + split.
      * destruct (is_equivalent_distro_empty_candidate os major_version) as [-> | [e ->]];
          discriminate.
      * intros (s0 & n0 & E & El & _). injection E as <-.
        rewrite El, String.eqb_refl in Ed. discriminate.
  - rewrite (is_match_empty_os d n os major_version arch os_type Hn Edmg
               (or_introl Hd)).
    split; [discriminate|].
    intros (s0 & n0 & _ & _ & E & Hend). injection E as <-. congruence.
Qed.

Lemma init_without_metadata_matches_only_darwin_witness :
  TenableInfoMetadata.os (TenableDownloadInfo.meta_data sample_dmg) = PStr "" /\
  (TenableDownloadInfo.is_match sample_dmg (PStr "MacOSX") (PStr "14") (PStr "arm64")
     (PStr "Darwin") = true <->
   darwin_dmg sample_dmg (PStr "Darwin")).
Proof.
  apply (init_without_metadata_matches_only_darwin
           [("name", PStr "NessusAgent-10.6.1.dmg")] sample_dmg).
  - vm_compute; reflexivity.
  - reflexivity.
Defined.


(* ------------------------------------------------------------------ *)
(** ** Product lines *)

Lemma build_downloads_inv (items : list pyval) :
  forall ds, TenableProductInfo.build_downloads items = Ok ds ->
             Forall2 builds_download items ds.
Proof.
  induction items as [|item items IH]; intros ds H;
    cbn [TenableProductInfo.build_downloads] in H.
  - injection H as <-. constructor.
  - destruct (as_mapping item) as [kw|] eqn:Ek; [|discriminate].
    cbn [bind] in H.
    destruct (TenableDownloadInfo.init kw) as [d|] eqn:Ed; [|discriminate].
    cbn [bind] in H.
    destruct (TenableProductInfo.build_downloads items) as [rest|]; [|discriminate].
    cbn [bind] in H. injection H as <-.
    constructor; [|now apply IH].
    exists kw. split; [|exact Ed].
    destruct item; try discriminate Ek. now injection Ek as ->.
Qed.

(** X18: a product line built from a list of raw entries holds one
    artifact per entry, in the order of the list, each the artifact its entry
    constructs; so a single entry that is not a dictionary, or that does not
    construct, leaves no product line at all. *)
Theorem product_init_downloads
  (kw : kwargs) (items : list pyval) (p : TenableProductInfo.t) :
  TenableProductInfo.init kw = Ok p ->
  lookup "downloads" kw = Some (PList items) ->
  Forall2 builds_download items (TenableProductInfo.downloads p) /\
  length (TenableProductInfo.downloads p) = length items.
Proof.
  intros H Hd. unfold TenableProductInfo.init in H.
  destruct (call_kwargs TenableProductInfo.params kw) as [a|] eqn:Ea; [|discriminate].
  cbn [bind] in H.
  rewrite (call_kwargs_arg _ _ _ "downloads" _ Ea eq_refl Hd) in H.
  cbn [py_iter bind] in H.
  destruct (TenableProductInfo.build_downloads items) as [ds|] eqn:Eb; [|discriminate].
  cbn [bind] in H. injection H as <-. cbn [TenableProductInfo.downloads].
  apply build_downloads_inv in Eb.
  split; [exact Eb|]. symmetry. exact (Forall2_length Eb).
Qed.

Lemma product_init_downloads_witness :
  Forall2 builds_download
    [ raw_download "NessusAgent-10.6.1-ubuntu1404_amd64.deb" "ubuntu1404" "amd64" ]
    (TenableProductInfo.downloads
       (TenableProductInfo.Build (PStr "p") PNone [nth 0 sample_downloads sample_dmg]
          (PStr "") (PStr ""))) /\
  length (TenableProductInfo.downloads
            (TenableProductInfo.Build (PStr "p") PNone [nth 0 sample_downloads sample_dmg]
               (PStr "") (PStr ""))) = 1.
Proof.
  apply (product_init_downloads
           [ ("product_name", PStr "p"); ("sort_order", PNone);
             ("downloads",
              PList [ raw_download "NessusAgent-10.6.1-ubuntu1404_amd64.deb"
                        "ubuntu1404" "amd64" ]) ]).
  - vm_compute; reflexivity.
  - reflexivity.
Defined.

Lemma call_kwargs_raises (sig : signature) (kw : kwargs) (e : pyexc) :
  call_kwargs sig kw = Raise e -> e = TypeError.
Proof.
  unfold call_kwargs.
  destruct (forallb (known sig) (map fst kw)); [|now intros H; injection H as <-].
  revert e.
  induction sig as [|[p default] sig IH]; intros e H; cbn [bind_params] in H;
    [discriminate|].
  destruct (lookup p kw) as [v|]; [|destruct default as [v|]]; cbn [bind] in H.
  - destruct (bind_params sig kw) as [frame|e']; cbn [bind] in H; [discriminate|].
    injection H as <-. now apply IH.
  - destruct (bind_params sig kw) as [frame|e']; cbn [bind] in H; [discriminate|].
    injection H as <-. now apply IH.
  - now injection H as <-.
Qed.

(** X19: a product entry that lacks [product_name], [sort_order] or
    [downloads], or whose [downloads] is null, is rejected with [TypeError];
    [release_notes] and [version] may be left out. *)
Theorem product_init_required :
  (forall (kw : kwargs) (p : string),
     In p ["product_name"; "sort_order"; "downloads"] ->
     lookup p kw = None ->
     TenableProductInfo.init kw = Raise TypeError) /\
  (forall kw : kwargs,
     lookup "downloads" kw = Some PNone ->
     TenableProductInfo.init kw = Raise TypeError) /\
  (forall product_name sort_order : pyval,
     TenableProductInfo.init
       [("product_name", product_name); ("sort_order", sort_order);
        ("downloads", PList [])]
     = Ok (TenableProductInfo.Build product_name sort_order [] (PStr "") (PStr ""))).
Proof.
  split; [|split].
  - intros kw p Hp Hl. unfold TenableProductInfo.init, call_kwargs.
    destruct (forallb (known TenableProductInfo.params) (map fst kw)); [|reflexivity].
    unfold TenableProductInfo.params. cbn [bind_params].
    destruct Hp as [<-|[<-|[<-|[]]]]; rewrite Hl.
    + reflexivity.
    + now destruct (lookup "product_name" kw).
    + now destruct (lookup "product_name" kw), (lookup "sort_order" kw).
  - intros kw Hl. unfold TenableProductInfo.init.
    destruct (call_kwargs TenableProductInfo.params kw) as [a|e] eqn:Ea.
    + cbn [bind]. now rewrite (call_kwargs_arg _ _ _ "downloads" _ Ea eq_refl Hl).
    + cbn [bind]. now rewrite (call_kwargs_raises _ _ _ Ea).
  - intros product_name sort_order. reflexivity.
Qed.

Lemma product_init_required_witness :
  TenableProductInfo.init [("product_name", PStr "p"); ("downloads", PList [])]
    = Raise TypeError /\
  TenableProductInfo.init
    [("product_name", PStr "p"); ("sort_order", PNone); ("downloads", PNone)]
    = Raise TypeError.
Proof.
  destruct product_init_required as (Hmiss & Hnull & _).
  split.
  - apply (Hmiss _ "sort_order"); [right; left; reflexivity | reflexivity].
  - apply Hnull. reflexivity.
Defined.

(* ------------------------------------------------------------------ *)
(** ** The page parser *)

Section ParserFacts.

Variable json_loads : string -> option pyval.
Variable html_events : string -> list html_event.

Lemma handle_outside (self : TenablePageParser.t) (e : html_event) :
  TenablePageParser.in_special_script self = false ->
  marks self e = false ->
  TenablePageParser.handle json_loads self e = self.
Proof.
  intros Hin Hm.
  destruct e as [tag attrs|data|tag]; cbn [TenablePageParser.handle].
  - unfold TenablePageParser.handle_starttag. cbn [marks] in Hm. now rewrite Hm.
  - unfold TenablePageParser.handle_data. now rewrite Hin.
  - unfold TenablePageParser.handle_endtag. now rewrite Hin, andb_false_r.
Qed.

Lemma fold_outside (events : list html_event) (self : TenablePageParser.t) :
  TenablePageParser.in_special_script self = false ->
  existsb (marks self) events = false ->
  fold_left (TenablePageParser.handle json_loads) events self = self.
Proof.
  intros Hin.
  induction events as [|e events IH]; cbn [existsb fold_left]; [reflexivity|].
  intros H. apply orb_false_iff in H as [He H].
  rewrite (handle_outside self e Hin He). now apply IH.
Qed.

Lemma append_empty_r (s : string) : (s ++ "")%string = s.
Proof. induction s as [|c s IH]; cbn [append]; [reflexivity | now rewrite IH]. Qed.

Lemma append_assoc_r (s1 s2 s3 : string) :
  ((s1 ++ s2) ++ s3)%string = (s1 ++ (s2 ++ s3))%string.
Proof. induction s1 as [|c s1 IH]; cbn [append]; [reflexivity | now rewrite IH]. Qed.

Lemma fold_chunks (chunks : list string) (self : TenablePageParser.t) :
  TenablePageParser.in_special_script self = true ->
  fold_left (TenablePageParser.handle json_loads) (map Data chunks) self =
  TenablePageParser.Build (TenablePageParser.find_attrs self)
    (TenablePageParser.find_tag self) true
    (TenablePageParser.json_data self ++ join chunks)
    (TenablePageParser.decoded_json self).
Proof.
  revert self.
  induction chunks as [|c chunks IH]; intros self Hin; cbn [map fold_left join fold_right].
  - rewrite append_empty_r. destruct self as [fa ft sp jd dj].
    cbn in Hin. subst sp. reflexivity.
  - change (TenablePageParser.handle json_loads self (Data c))
      with (TenablePageParser.handle_data self c).
    unfold TenablePageParser.handle_data. rewrite Hin.
    rewrite IH by reflexivity.
    cbn [TenablePageParser.find_attrs TenablePageParser.find_tag
         TenablePageParser.json_data TenablePageParser.decoded_json].
    now rewrite append_assoc_r.
Qed.

(** X20: a page in which no start tag carries the marker leaves a fresh
    parser exactly as it was, text outside the marked element being dropped;
    [get_product_info] then raises [TypeError]. *)
Theorem feed_without_marker (text : string) :
  existsb (marks TenablePageParser.new) (html_events text) = false ->
  TenablePageParser.feed json_loads html_events TenablePageParser.new text
    = TenablePageParser.new /\
  TenablePageParser.get_product_info json_loads html_events TenablePageParser.new text
    = Raise TypeError.
Proof.
  intros H.
  assert (Hfeed : TenablePageParser.feed json_loads html_events TenablePageParser.new text
                  = TenablePageParser.new).
  { unfold TenablePageParser.feed. now apply fold_outside. }
  split; [exact Hfeed|].
  unfold TenablePageParser.get_product_info.
  cbn [TenablePageParser.new TenablePageParser.init TenablePageParser.decoded_json is_none].
  fold TenablePageParser.new. now rewrite Hfeed.
Qed.

(** X21: the text of the marked element is decoded as a whole: when it
    arrives in several chunks, what [json.loads] receives at the end tag is
    the chunks joined in order, and its value becomes [decoded_json]. *)
Theorem feed_joins_chunks
  (text : string) (attrs : list (string * option string)) (chunks : list string)
  (v : pyval) :
  html_events text = StartTag "script" attrs :: map Data chunks ++ [EndTag "script"] ->
  existsb (attr_eqb ("id", Some "__NEXT_DATA__")) attrs = true ->
  json_loads (join chunks) = Some v ->
  TenablePageParser.feed json_loads html_events TenablePageParser.new text
  = TenablePageParser.Build ("id", Some "__NEXT_DATA__") "script" false (join chunks) v.
Proof.
  intros Hev Hattrs Hjson.
  unfold TenablePageParser.feed. rewrite Hev.
  cbn [fold_left TenablePageParser.handle].
  unfold TenablePageParser.handle_starttag at 1.
  cbn [TenablePageParser.new TenablePageParser.init TenablePageParser.find_tag
       TenablePageParser.find_attrs TenablePageParser.json_data
       TenablePageParser.decoded_json].
  rewrite Hattrs. cbn [String.eqb Ascii.eqb Bool.eqb andb].
  rewrite fold_left_app, fold_chunks by reflexivity.
  cbn [fold_left TenablePageParser.handle].
  unfold TenablePageParser.handle_endtag.
  cbn [TenablePageParser.find_tag TenablePageParser.in_special_script
       TenablePageParser.json_data TenablePageParser.find_attrs
       TenablePageParser.decoded_json append].
  cbn [String.eqb Ascii.eqb Bool.eqb andb].
  now rewrite Hjson.
Qed.

Lemma lookup_NoDup (entries : kwargs) (k : string) (v : pyval) :
  NoDup (map fst entries) -> In (k, v) entries -> lookup k entries = Some v.
Proof.
  induction entries as [|[k' v'] entries IH]; intros Hnd Hin; [destruct Hin|].
  cbn [map fst] in Hnd. inversion Hnd as [|? ? Hnot Hnd']; subst.
  cbn [lookup]. destruct Hin as [E|Hin].
  - injection E as -> ->. now rewrite String.eqb_refl.
  - destruct (k' =? k) eqn:Ek.
    + apply String.eqb_eq in Ek; subst k'.
      elim Hnot. change k with (fst (k, v)). now apply in_map.
    + now apply IH.
Qed.

Lemma dict_set_fresh {V : Type} (d : list (pyval * V)) (k : string) (v : V) :
  ~ In (PStr k) (map fst d) -> dict_set d (PStr k) v = d ++ [(PStr k, v)].
Proof.
  induction d as [|[k' v'] d IH]; intros H; cbn [dict_set app]; [reflexivity|].
  cbn [map fst In] in H.
  assert (Hk : key_eqb k' (PStr k) = false).
  { destruct k'; try reflexivity. cbn [key_eqb].
    apply String.eqb_neq. intros ->. apply H. now left. }
  rewrite Hk. f_equal. apply IH. intros Hin. apply H. now right.
Qed.

Lemma collect_spec (entries : kwargs) (rest : kwargs) :
  forall (infos : list TenableProductInfo.t)
         (acc : list (pyval * TenableProductInfo.t)),
    (forall k v, In (k, v) rest -> lookup k entries = Some v) ->
    NoDup (map fst rest) ->
    (forall k, In k (map fst rest) -> ~ In (PStr k) (map fst acc)) ->
    Forall2 builds rest infos ->
    TenablePageParser.collect (PDict entries) (map product_key rest) acc =
    Ok (acc ++ combine (map product_key rest) infos).
Proof.
  induction rest as [|[k v] rest IH]; intros infos acc Hl Hnd Hfresh HF;
    inversion HF as [|? info ? infos' [kw [Ev Hinit]] HF']; subst;
    cbn [map TenablePageParser.collect combine].
  - now rewrite app_nil_r.
  - cbn [snd] in Ev. subst v.
    change (product_key (k, PDict kw)) with (PStr k). cbn [py_getitem].
    rewrite (Hl k (PDict kw) (or_introl eq_refl)). cbn [bind as_mapping].
    rewrite Hinit. cbn [bind].
    cbn [map fst] in Hnd. inversion Hnd as [|? ? Hnot Hnd']; subst.
    rewrite dict_set_fresh by (apply Hfresh; now left).
    rewrite IH with (infos := infos'); trivial.
    + now rewrite <- app_assoc.
    + intros k0 v0 Hin. apply Hl. now right.
    + intros k0 Hk0. rewrite map_app, in_app_iff. cbn [map fst In].
      intros [Hin|[E|[]]].
      * apply (Hfresh k0); [now right | exact Hin].
      * injection E as ->. contradiction.
Qed.

(** X22: for a page whose decoded document holds a dictionary of product
    lines under "props", "pageProps", "products", with every line
    constructing, [get_product_info] returns one product line per key, under
    that key and in the order of the document. *)
Theorem get_product_info_catalog
  (text : string) (top props pageProps products : kwargs)
  (infos : list TenableProductInfo.t) :
  TenablePageParser.decoded_json
    (TenablePageParser.feed json_loads html_events TenablePageParser.new text)
    = PDict top ->
  lookup "props" top = Some (PDict props) ->
  lookup "pageProps" props = Some (PDict pageProps) ->
  lookup "products" pageProps = Some (PDict products) ->
  NoDup (map fst products) ->
  Forall2 builds products infos ->
  TenablePageParser.get_product_info json_loads html_events TenablePageParser.new text
  = Ok (TenablePageParser.feed json_loads html_events TenablePageParser.new text,
        combine (map product_key products) infos).
Proof.
  intros Hdec Hprops Hpage Hprod Hnd HF.
  unfold TenablePageParser.get_product_info.
  cbn [TenablePageParser.new TenablePageParser.init TenablePageParser.decoded_json is_none].
  fold TenablePageParser.new.
  rewrite Hdec. cbn [py_getitem]. rewrite Hprops. cbn [bind py_getitem].
  rewrite Hpage. cbn [bind py_getitem]. rewrite Hprod. cbn [bind py_iter].
  change (map (fun kv : string * pyval => PStr (fst kv)) products)
    with (map product_key products).
  rewrite (collect_spec products products infos []); trivial.
  - intros k v Hin. now apply lookup_NoDup.
  - intros k _ [].
Qed.

End ParserFacts.

Lemma feed_without_marker_witness :
  TenablePageParser.feed sample_loads sample_events TenablePageParser.new "<html>hello</html>"
    = TenablePageParser.new /\
  TenablePageParser.get_product_info sample_loads sample_events TenablePageParser.new
    "<html>hello</html>"
    = Raise TypeError.
Proof.
  apply (feed_without_marker sample_loads sample_events "<html>hello</html>").
  reflexivity.
Defined.

Lemma feed_joins_chunks_witness :
  TenablePageParser.feed sample_loads
    (fun _ => [ StartTag "script" [("id", Some "__NEXT_DATA__")];
                Data "{.."; Data ".}"; EndTag "script" ])
    TenablePageParser.new sample_page
  = TenablePageParser.Build ("id", Some "__NEXT_DATA__") "script" false
      (join ["{.."; ".}"]) sample_document.
Proof.
  apply (feed_joins_chunks sample_loads
           (fun _ => [ StartTag "script" [("id", Some "__NEXT_DATA__")];
                       Data "{.."; Data ".}"; EndTag "script" ])
           sample_page [("id", Some "__NEXT_DATA__")] ["{.."; ".}"] sample_document);
    reflexivity.
Defined.

Lemma get_product_info_catalog_witness :
  TenablePageParser.get_product_info sample_loads sample_events TenablePageParser.new
    sample_page
  = Ok (TenablePageParser.feed sample_loads sample_events TenablePageParser.new sample_page,
        combine
          (map product_key
             [ ("release-notes",
                PDict [ ("product_name", PStr "notes"); ("sort_order", PNone);
                        ("downloads", PList []) ]);
               ("nessus-agents-10.6.1", sample_product_dict) ])
          [ TenableProductInfo.Build (PStr "notes") PNone [] (PStr "") (PStr "");
            sample_product ]).
Proof.
  apply (get_product_info_catalog sample_loads sample_events sample_page
           [ ("props",
              PDict [ ("pageProps",
                       PDict [ ("products",
                                PDict [ ("release-notes",
                                         PDict [ ("product_name", PStr "notes");
                                                 ("sort_order", PNone);
                                                 ("downloads", PList []) ]);
                                        ("nessus-agents-10.6.1", sample_product_dict) ]) ]) ]);
             ("page", PStr "/downloads/nessus-agents") ]
           [ ("pageProps",
              PDict [ ("products",
                       PDict [ ("release-notes",
                                PDict [ ("product_name", PStr "notes");
                                        ("sort_order", PNone);
                                        ("downloads", PList []) ]);
                               ("nessus-agents-10.6.1", sample_product_dict) ]) ]) ]
           [ ("products",
              PDict [ ("release-notes",
                       PDict [ ("product_name", PStr "notes");
                               ("sort_order", PNone);
                               ("downloads", PList []) ]);
                      ("nessus-agents-10.6.1", sample_product_dict) ]) ]).
  - reflexivity.
  - reflexivity.
  - reflexivity.
  - reflexivity.
  - repeat constructor; cbn; intuition discriminate.
  - repeat constructor.
    + eexists. split; [reflexivity | vm_compute; reflexivity].
    + eexists. split; [reflexivity | vm_compute; reflexivity].
Defined.

(* ------------------------------------------------------------------ *)
(** ** The downloader *)

Section DownloaderFacts.

Variable json_loads : string -> option pyval.
Variable html_events : string -> list html_event.
Variable http_get : string -> Z * string.

Lemma first_installer_skips
  (before after : list (pyval * TenableProductInfo.t)) (k : string)
  (info : TenableProductInfo.t) :
  Forall not_installer before ->
  startswith k "nessus-agents" = true ->
  TenableProductDownloader.first_installer (before ++ (PStr k, info) :: after)
  = Ok (Some info).
Proof.
  intros Hb Hk.
  induction Hb as [|[p i] before [s [Hs Hn]] Hb IH];
    cbn [app TenableProductDownloader.first_installer].
  - cbn [bind]. now rewrite Hk.
  - cbn [fst] in Hs. subst p. cbn [bind]. now rewrite Hn.
Qed.

Lemma first_installer_none (c : list (pyval * TenableProductInfo.t)) :
  Forall not_installer c ->
  TenableProductDownloader.first_installer c = Ok None.
Proof.
  intros Hc.
  induction Hc as [|[p i] c [s [Hs Hn]] Hc IH];
    cbn [TenableProductDownloader.first_installer]; [reflexivity|].
  cbn [fst] in Hs. subst p. cbn [bind]. now rewrite Hn.
Qed.

Lemma nessus_agent_info_loaded (self : TenableProductDownloader.t)
  (c : TenableProductDownloader.catalog) :
  self <> [] ->
  TenableProductDownloader.fetch self "nessus-agents" = Ok c ->
  TenableProductDownloader.nessus_agent_info json_loads html_events http_get self
  = Ok (self, c).
Proof.
  intros Hne Hf. unfold TenableProductDownloader.nessus_agent_info.
  destruct self as [|x self]; [now elim Hne|].
  cbn [bind]. now rewrite Hf.
Qed.

(** X23: on a downloader that holds catalogs, the query reads the
    "nessus-agents" catalog as it is held, takes the first product line whose
    key starts with "nessus-agents", in the order of the catalog, and answers
    with the selection made in that line; the downloader is left as it was. *)
Theorem download_info_from_first_installer
  (self : TenableProductDownloader.t)
  (before after : list (pyval * TenableProductInfo.t)) (k : string)
  (info : TenableProductInfo.t) (os major_version arch os_type : pyval) :
  self <> [] ->
  TenableProductDownloader.fetch self "nessus-agents"
    = Ok (before ++ (PStr k, info) :: after) ->
  Forall not_installer before ->
  startswith k "nessus-agents" = true ->
  TenableProductDownloader.get_nessus_agent_download_info json_loads html_events http_get
    self os major_version arch os_type
  = (d <- TenableProductInfo.get_download_for info os major_version arch os_type ;;
     Ok (self, d)).
Proof.
  intros Hne Hf Hb Hk.
  unfold TenableProductDownloader.get_nessus_agent_download_info,
    TenableProductDownloader.nessus_agent_installer_info.
  rewrite (nessus_agent_info_loaded self _ Hne Hf). cbn [bind snd fst].
  rewrite (first_installer_skips before after k info Hb Hk).
  reflexivity.
Qed.

(** X24: when the held "nessus-agents" catalog has string keys of which
    none starts with "nessus-agents", and so too when it is empty, the query
    raises [AttributeError]: it calls the selection on [None]. *)
Theorem download_info_without_installer
  (self : TenableProductDownloader.t) (c : TenableProductDownloader.catalog)
  (os major_version arch os_type : pyval) :
  self <> [] ->
  TenableProductDownloader.fetch self "nessus-agents" = Ok c ->
  Forall not_installer c ->
  TenableProductDownloader.get_nessus_agent_download_info json_loads html_events http_get
    self os major_version arch os_type
  = Raise AttributeError.
Proof.
  intros Hne Hf Hc.
  unfold TenableProductDownloader.get_nessus_agent_download_info,
    TenableProductDownloader.nessus_agent_installer_info.
  rewrite (nessus_agent_info_loaded self _ Hne Hf). cbn [bind snd fst].
  now rewrite (first_installer_none c Hc).
Qed.

Lemma load_all_unfold :
  TenableProductDownloader.load_all_product_info json_loads html_events http_get
    TenableProductDownloader.new
  = (let r1 := http_get nessus_agents_url in
     if (fst r1 =? 200)%Z then
       c1 <- TenablePageParser.get_product_info json_loads html_events
               TenablePageParser.new (snd r1) ;;
       let r2 := http_get security_center_url in
       if (fst r2 =? 200)%Z then
         c2 <- TenablePageParser.get_product_info json_loads html_events
                 TenablePageParser.new (snd r2) ;;
         Ok [("nessus-agents", snd c1); ("security-center", snd c2)]
       else Ok [("nessus-agents", snd c1)]
     else
       let r2 := http_get security_center_url in
       if (fst r2 =? 200)%Z then
         c2 <- TenablePageParser.get_product_info json_loads html_events
                 TenablePageParser.new (snd r2) ;;
         Ok [("security-center", snd c2)]
       else Ok []).
Proof.
  unfold TenableProductDownloader.load_all_product_info,
    TenableProductDownloader.available_products, TenableProductDownloader.new.
  cbn [TenableProductDownloader.load].
  change (TenableProductDownloader.root_product_uri ++ "/" ++ "nessus-agents" ++
          "?loginAttempted=true")%string with nessus_agents_url.
  change (TenableProductDownloader.root_product_uri ++ "/" ++ "security-center" ++
          "?loginAttempted=true")%string with security_center_url.
  cbn zeta.
  destruct (fst (http_get nessus_agents_url) =? 200)%Z.
  - destruct (TenablePageParser.get_product_info json_loads html_events
                TenablePageParser.new (snd (http_get nessus_agents_url))) as [c1|e];
      cbn [bind]; [|reflexivity].
    cbn [TenableProductDownloader.store].
    destruct (fst (http_get security_center_url) =? 200)%Z; [|reflexivity].
    destruct (TenablePageParser.get_product_info json_loads html_events
                TenablePageParser.new (snd (http_get security_center_url))) as [c2|e];
      cbn [bind]; reflexivity.
  - destruct (fst (http_get security_center_url) =? 200)%Z; [|reflexivity].
    destruct (TenablePageParser.get_product_info json_loads html_events
                TenablePageParser.new (snd (http_get security_center_url))) as [c2|e];
      cbn [bind]; reflexivity.
Qed.

(** X25: when the nessus-agents page does not answer 200, nothing is held
    under "nessus-agents" and the query on a fresh downloader raises
    [KeyError], whether the security-center page fails too or is loaded. *)
Theorem download_info_page_unavailable (os major_version arch os_type : pyval) :
  fst (http_get nessus_agents_url) <> 200%Z ->
  fst (http_get security_center_url) <> 200%Z \/
  (exists r, TenablePageParser.get_product_info json_loads html_events
               TenablePageParser.new (snd (http_get security_center_url)) = Ok r) ->
  TenableProductDownloader.get_nessus_agent_download_info json_loads html_events http_get
    TenableProductDownloader.new os major_version arch os_type
  = Raise KeyError.
Proof.
  intros H1 H2.
  unfold TenableProductDownloader.get_nessus_agent_download_info,
    TenableProductDownloader.nessus_agent_installer_info,
    TenableProductDownloader.nessus_agent_info.
  change (match TenableProductDownloader.new with
          | [] => TenableProductDownloader.load_all_product_info json_loads html_events
                    http_get TenableProductDownloader.new
          | _ :: _ => Ok TenableProductDownloader.new
          end)
    with (TenableProductDownloader.load_all_product_info json_loads html_events
            http_get TenableProductDownloader.new).
  rewrite load_all_unfold. cbn zeta.
  apply Z.eqb_neq in H1. rewrite H1.
  destruct H2 as [H2|[r H2]].
  - apply Z.eqb_neq in H2. rewrite H2. reflexivity.
  - destruct (fst (http_get security_center_url) =? 200)%Z; [|reflexivity].
    rewrite H2. reflexivity.
Qed.

(** X26: the two pages are loaded together: when the nessus-agents page
    loads but the security-center page answers 200 with a document that
    [get_product_info] raises on, the nessus-agents query on a fresh
    downloader raises that exception. *)
Theorem download_info_other_page_fails
  (body1 body2 : string) (r1 : TenablePageParser.t * TenableProductDownloader.catalog)
  (e : pyexc) (os major_version arch os_type : pyval) :
  http_get nessus_agents_url = (200%Z, body1) ->
  TenablePageParser.get_product_info json_loads html_events TenablePageParser.new body1
    = Ok r1 ->
  http_get security_center_url = (200%Z, body2) ->
  TenablePageParser.get_product_info json_loads html_events TenablePageParser.new body2
    = Raise e ->
  TenableProductDownloader.get_nessus_agent_download_info json_loads html_events http_get
    TenableProductDownloader.new os major_version arch os_type
  = Raise e.
Proof.
  intros Hg1 Hp1 Hg2 Hp2.
  unfold TenableProductDownloader.get_nessus_agent_download_info,
    TenableProductDownloader.nessus_agent_installer_info,
    TenableProductDownloader.nessus_agent_info.
  change (match TenableProductDownloader.new with
          | [] => TenableProductDownloader.load_all_product_info json_loads html_events
                    http_get TenableProductDownloader.new
          | _ :: _ => Ok TenableProductDownloader.new
          end)
    with (TenableProductDownloader.load_all_product_info json_loads html_events
            http_get TenableProductDownloader.new).
  rewrite load_all_unfold. cbn zeta.
  rewrite Hg1, Hg2. cbn [fst snd Z.eqb Pos.eqb].
  rewrite Hp1. cbn [bind]. rewrite Hp2. reflexivity.
Qed.

(** X27: a fresh downloader whose nessus-agents page loads with a catalog,
    the security-center page not answering 200, keeps that catalog under
    "nessus-agents" and answers with the selection made in the first product
    line whose key starts with "nessus-agents". *)
Theorem download_info_fresh
  (body : string) (parser : TenablePageParser.t)
  (before after : list (pyval * TenableProductInfo.t)) (k : string)
  (info : TenableProductInfo.t) (os major_version arch os_type : pyval) :
  http_get nessus_agents_url = (200%Z, body) ->
  TenablePageParser.get_product_info json_loads html_events TenablePageParser.new body
    = Ok (parser, before ++ (PStr k, info) :: after) ->
  fst (http_get security_center_url) <> 200%Z ->
  Forall not_installer before ->
  startswith k "nessus-agents" = true ->
  TenableProductDownloader.get_nessus_agent_download_info json_loads html_events http_get
    TenableProductDownloader.new os major_version arch os_type
  = (d <- TenableProductInfo.get_download_for info os major_version arch os_type ;;
     Ok ([("nessus-agents", before ++ (PStr k, info) :: after)], d)).
Proof.
  intros Hg Hp H2 Hb Hk.
  unfold TenableProductDownloader.get_nessus_agent_download_info,
    TenableProductDownloader.nessus_agent_installer_info,
    TenableProductDownloader.nessus_agent_info.
  change (match TenableProductDownloader.new with
          | [] => TenableProductDownloader.load_all_product_info json_loads html_events
                    http_get TenableProductDownloader.new
          | _ :: _ => Ok TenableProductDownloader.new
          end)
    with (TenableProductDownloader.load_all_product_info json_loads html_events
            http_get TenableProductDownloader.new).
  rewrite load_all_unfold. cbn zeta.
  apply Z.eqb_neq in H2. rewrite Hg, H2. cbn [fst snd Z.eqb Pos.eqb].
  rewrite Hp. cbn [bind snd fst TenableProductDownloader.fetch String.eqb Ascii.eqb Bool.eqb].
  rewrite (first_installer_skips before after k info Hb Hk).
  reflexivity.
Qed.

End DownloaderFacts.

Lemma download_info_from_first_installer_witness :
  TenableProductDownloader.get_nessus_agent_download_info sample_loads sample_events
    sample_get [("nessus-agents", sample_catalog)]
    (PStr "Ubuntu") (PStr "14") (PStr "aarch64") (PStr "Debian")
  = (d <- TenableProductInfo.get_download_for sample_product
            (PStr "Ubuntu") (PStr "14") (PStr "aarch64") (PStr "Debian") ;;
     Ok ([("nessus-agents", sample_catalog)], d)).
Proof.
  apply (download_info_from_first_installer sample_loads sample_events sample_get
           [("nessus-agents", sample_catalog)]
           [ (PStr "release-notes",
              TenableProductInfo.Build (PStr "notes") PNone [] (PStr "") (PStr "")) ]
           [] "nessus-agents-10.6.1" sample_product).
  - discriminate.
  - reflexivity.
  - constructor; [|constructor]. exists "release-notes". split; reflexivity.
  - reflexivity.
Defined.

Lemma download_info_without_installer_witness :
  TenableProductDownloader.get_nessus_agent_download_info sample_loads sample_events
    sample_get
    [("nessus-agents",
      [ (PStr "release-notes",
         TenableProductInfo.Build (PStr "notes") PNone [] (PStr "") (PStr "")) ])]
    (PStr "Ubuntu") (PStr "14") (PStr "aarch64") (PStr "Debian")
  = Raise AttributeError.
Proof.
  apply (download_info_without_installer sample_loads sample_events sample_get _
           [ (PStr "release-notes",
              TenableProductInfo.Build (PStr "notes") PNone [] (PStr "") (PStr "")) ]).
  - discriminate.
  - reflexivity.
  - constructor; [|constructor]. exists "release-notes". split; reflexivity.
Defined.

Lemma download_info_page_unavailable_witness :
  TenableProductDownloader.get_nessus_agent_download_info sample_loads sample_events
    (fun _ => (503%Z, "unavailable")) TenableProductDownloader.new
    (PStr "Ubuntu") (PStr "14") (PStr "x86_64") (PStr "Debian")
  = Raise KeyError.
Proof.
  apply (download_info_page_unavailable sample_loads sample_events
           (fun _ => (503%Z, "unavailable"))).
  - discriminate.
  - left. discriminate.
Defined.

Lemma download_info_other_page_fails_witness :
  TenableProductDownloader.get_nessus_agent_download_info sample_loads sample_events_both
    sample_get_both TenableProductDownloader.new
    (PStr "Ubuntu") (PStr "14") (PStr "x86_64") (PStr "Debian")
  = Raise TypeError.
Proof.
  apply (download_info_other_page_fails sample_loads sample_events_both sample_get_both
           sample_page broken_page
           (TenablePageParser.feed sample_loads sample_events_both TenablePageParser.new
              sample_page, sample_catalog)).
  - reflexivity.
  - vm_compute; reflexivity.
  - reflexivity.
  - vm_compute; reflexivity.
Defined.

Lemma download_info_fresh_witness :
  TenableProductDownloader.get_nessus_agent_download_info sample_loads sample_events
    sample_get TenableProductDownloader.new
    (PStr "Ubuntu") (PStr "14") (PStr "x86_64") (PStr "Debian")
  = (d <- TenableProductInfo.get_download_for sample_product
            (PStr "Ubuntu") (PStr "14") (PStr "x86_64") (PStr "Debian") ;;
     Ok ([("nessus-agents",
           [ (PStr "release-notes",
              TenableProductInfo.Build (PStr "notes") PNone [] (PStr "") (PStr "")) ]
           ++ (PStr "nessus-agents-10.6.1", sample_product) :: [])], d)).
Proof.
  apply (download_info_fresh sample_loads sample_events sample_get sample_page
           (TenablePageParser.feed sample_loads sample_events TenablePageParser.new
              sample_page)).
  - reflexivity.
  - vm_compute; reflexivity.
  - discriminate.
  - constructor; [|constructor]. exists "release-notes". split; reflexivity.
  - reflexivity.
Defined.

(* ------------------------------------------------------------------ *)
(** ** The download locator *)

Lemma length_append (a b : string) :
  String.length (a ++ b) = String.length a + String.length b.
Proof.
  induction a as [|c a IH]; cbn [append String.length]; [reflexivity|].
  now rewrite IH.
Qed.

Lemma append_inj_l (s a b : string) : (s ++ a)%string = (s ++ b)%string -> a = b.
Proof.
  induction s as [|c s IH]; cbn [append]; intros H; [exact H|].
  injection H as H. now apply IH.
Qed.

Lemma append_inj_r (s : string) : forall a b : string,
  (a ++ s)%string = (b ++ s)%string -> a = b.
Proof.
  induction a as [|c a IH]; intros [|c' b] H; cbn [append] in H.
  - reflexivity.
  - apply (f_equal String.length) in H. cbn [String.length] in H.
    rewrite length_append in H. lia.
  - apply (f_equal String.length) in H. cbn [String.length] in H.
    rewrite length_append in H. lia.
  - injection H as -> H. f_equal. now apply IH.
Qed.

Lemma string_of_int_inj (z1 z2 : Z) :
  NilEmpty.string_of_int (Z.to_int z1) = NilEmpty.string_of_int (Z.to_int z2) ->
  z1 = z2.
Proof.
  intros H.
  apply (f_equal NilEmpty.int_of_string) in H.
  rewrite !NilEmpty.isi in H. injection H as H.
  apply (f_equal Z.of_int) in H. now rewrite !DecimalZ.of_to in H.
Qed.

(** X28: the locator of an artifact is the fixed template around its
    identifier: two artifacts with integer identifiers have the same locator
    only if they have the same identifier; the identifier 22712 gives the
    locator the module's documentation shows; and an entry without [id] gets
    a locator around the text "None". *)
Theorem download_uri_by_id :
  (forall (d1 d2 : TenableDownloadInfo.t) (z1 z2 : Z),
     TenableDownloadInfo.id d1 = PInt z1 ->
     TenableDownloadInfo.id d2 = PInt z2 ->
     download_uri d1 = download_uri d2 ->
     z1 = z2) /\
  (forall d : TenableDownloadInfo.t,
     TenableDownloadInfo.id d = PInt 22712 ->
     download_uri d =
     Some "https://www.tenable.com/downloads/api/v1/public/pages/nessus-agents/downloads/22712/download?i_agree_to_tenable_license_agreement=true") /\
  (forall (kw : kwargs) (d : TenableDownloadInfo.t),
     TenableDownloadInfo.init kw = Ok d ->
     lookup "id" kw = None ->
     download_uri d =
     Some "https://www.tenable.com/downloads/api/v1/public/pages/nessus-agents/downloads/None/download?i_agree_to_tenable_license_agreement=true").
Proof.
  split; [|split].
  - intros d1 d2 z1 z2 H1 H2 H.
    unfold download_uri in H. rewrite H1, H2 in H.
    cbn [py_str option_map] in H.
    assert (H' : TENABLE_DOWNLOAD_API_URI (NilEmpty.string_of_int (Z.to_int z1)) =
                 TENABLE_DOWNLOAD_API_URI (NilEmpty.string_of_int (Z.to_int z2)))
      by congruence.
    clear H. unfold TENABLE_DOWNLOAD_API_URI in H'.
    apply append_inj_l, append_inj_r in H'.
    now apply string_of_int_inj.
  - intros d H. unfold download_uri. rewrite H. reflexivity.
  - intros kw d H Hid.
    apply init_inv in H as (a & mdkw & md & md' & n & Ea & _ & _ & _ & _ & ->).
    unfold download_uri. cbn [TenableDownloadInfo.id].
    rewrite (call_kwargs_given _ _ _ "id" PNone Ea eq_refl eq_refl).
    unfold given. rewrite Hid. reflexivity.
Qed.

Lemma download_uri_by_id_witness :
  download_uri sample_dmg =
  Some "https://www.tenable.com/downloads/api/v1/public/pages/nessus-agents/downloads/None/download?i_agree_to_tenable_license_agreement=true".
Proof.
  destruct download_uri_by_id as (_ & _ & H).
  apply (H [("name", PStr "NessusAgent-10.6.1.dmg")] sample_dmg).
  - vm_compute; reflexivity.
  - reflexivity.
Defined.
